(** * Car2X coordinator: the dashboard's MQTT handler and job registry

    A shallow embedding of the message protocol, state aggregation and
    job-lifecycle code of [app.py] (class [Car2XDashboard] and the Flask
    routes next to it) and of the matching parts of [v2x_simulator.py]
    (class [V2XSimulator]), followed by the properties the specification
    states about them.

    Python objects are modelled as follows.
    - [str] is [string]; [bytes] is [list Byte.byte];
    - a decoded JSON document is a [value];
    - the dictionaries [vehicles], [infrastructure] and [jobs] are
      [gmap string _], the list [emergencies] is a [list value];
    - a job dictionary is the record [Job]; its key ['responses'] is absent
      until the first response, hence an [option];
    - a method body is a computation in the state-and-exception monad [M]:
      it reads and writes the object ([self]), appends to the trace of
      outside effects (socket emits, MQTT publishes, console lines) and
      either returns or raises. *)

From Stdlib Require Import String Ascii List ZArith Lia.
From stdpp Require Import base option list strings pretty gmap.

Import ListNotations.
Set Warnings "-register-all".
Local Open Scope string_scope.
Local Open Scope Z_scope.
Local Open Scope list_scope.

(** ** Python values *)

(** What [json.loads] can return, and what the handlers store and forward.
    A float is kept as the bit pattern of its IEEE-754 binary64. *)
Inductive value : Type :=
| VNone
| VBool (b : bool)
| VInt (z : Z)
| VFloat (bits : Z)
| VStr (s : string)
| VList (items : list value)
| VDict (items : list (string * value)).

(** Python truthiness of a JSON value, as used by [x or y]. *)
Definition truthy (v : value) : bool :=
  match v with
  | VNone => false
  | VBool b => b
  | VInt z => negb (z =? 0)
  | VFloat bits => negb ((bits =? 0) || (bits =? 2 ^ 63))
  | VStr s => negb (String.eqb s "")
  | VList l => match l with [] => false | _ => true end
  | VDict l => match l with [] => false | _ => true end
  end.

(** [a or b] on values. *)
Definition py_or (a b : value) : value := if truthy a then a else b.

(** [d.get(key, default)] on the items of a dictionary (its keys are
    distinct). *)
Fixpoint dict_get (items : list (string * value)) (key : string) (default : value) : value :=
  match items with
  | [] => default
  | (k, v) :: rest => if String.eqb k key then v else dict_get rest key default
  end.

(** ** Exceptions and the libraries outside the repository *)

Inductive exn : Type :=
| IndexError
| UnicodeDecodeError
| JSONDecodeError
| AttributeError.

Inductive result (A : Type) : Type :=
| Ok (a : A)
| Raise (e : exn).
Arguments Ok {A} a.
Arguments Raise {A} e.

(** The Python library calls the handlers make on a payload. They are not
    code of this repository, so the development is parametric in them:
    [bytes_decode] is [bytes.decode()] ([None] when it raises
    [UnicodeDecodeError]), [json_loads] is [json.loads] ([None] when it
    raises [JSONDecodeError]) and [json_dumps] is [json.dumps]. *)
Class PyLib : Type := {
  bytes_decode : list Byte.byte -> option string;
  json_loads : string -> option value;
  json_dumps : value -> string
}.

(** ** [str.split] and list indexing *)

(** [s.split(sep)] for a one-character separator: the result is never
    empty, and [n] separators give [n + 1] pieces. *)
Fixpoint split (sep : ascii) (s : string) : list string :=
  match s with
  | EmptyString => [EmptyString]
  | String c rest =>
      if Ascii.eqb c sep then EmptyString :: split sep rest
      else match split sep rest with
           | piece :: pieces => String c piece :: pieces
           | [] => [String c EmptyString]
           end
  end.

(** [l[i]] for [i >= 0]: out of range raises [IndexError]. *)
Definition getitem {A : Type} (l : list A) (i : nat) : result A :=
  match l !! i with
  | Some x => Ok x
  | None => Raise IndexError
  end.

(** [l[-n:]] for [n > 0]: the last [n] items, or all of them. *)
Definition slice_last {A : Type} (n : nat) (l : list A) : list A :=
  drop (length l - n) l.

(** Does the string contain the character? *)
Fixpoint contains (c : ascii) (s : string) : bool :=
  match s with
  | EmptyString => false
  | String c' rest => Ascii.eqb c' c || contains c rest
  end.

(** ** Outside effects *)

Inductive effect : Type :=
| SocketEmit (event : string) (data : value)
| MqttPublish (topic : string) (payload : string)
| PrintError (context : string) (e : exn)
| Print (format : string) (args : list value)
| ThreadStart (target : string).

(** ** UUIDs *)

Definition hex_digit (d : Z) : ascii :=
  nth (Z.to_nat (d mod 16)) (list_ascii_of_string "0123456789abcdef") "0"%char.

(** ['%0<width>x' % z] for [0 <= z < 16 ^ width]. *)
Fixpoint hex_fixed (width : nat) (z : Z) : string :=
  match width with
  | O => EmptyString
  | S w => hex_fixed w (z / 16) +:+ String (hex_digit z) EmptyString
  end.

(** [s[a:b]] for [0 <= a <= b]. *)
Definition slice (a b : nat) (s : string) : string := substring a (b - a) s.

(** [str(u)] for a [uuid.UUID] whose 128-bit integer is [u]:
    the 32 hex digits in groups of 8-4-4-4-12. *)
Definition uuid_str (u : Z) : string :=
  let hex := hex_fixed 32 u in
  slice 0 8 hex +:+ "-" +:+ slice 8 12 hex +:+ "-" +:+ slice 12 16 hex
    +:+ "-" +:+ slice 16 20 hex +:+ "-" +:+ slice 20 32 hex.

(** ** The state-and-exception monad *)

(** The object a method runs on, and the outside effects so far. *)
Record world (S : Type) : Type := World { self : S; trace : list effect }.
Arguments World {S} self trace.
Arguments self {S} w.
Arguments trace {S} w.

Section Monad.
Context {S : Type}.

Definition M (A : Type) : Type := world S -> result A * world S.

Definition ret {A : Type} (a : A) : M A := fun w => (Ok a, w).

Definition bind {A B : Type} (c : M A) (k : A -> M B) : M B :=
  fun w =>
    match c w with
    | (Ok a, w') => k a w'
    | (Raise e, w') => (Raise e, w')
    end.

Definition raise {A : Type} (e : exn) : M A := fun w => (Raise e, w).

Definition lift {A : Type} (r : result A) : M A := fun w => (r, w).

Definition get : M S := fun w => (Ok (self w), w).

Definition modify (f : S -> S) : M unit :=
  fun w => (Ok tt, World (f (self w)) (trace w)).

Definition tell (e : effect) : M unit :=
  fun w => (Ok tt, World (self w) (trace w ++ [e])).

(** [try: body except Exception as e: handler(e)]. The state the body
    reached before it raised is kept. *)
Definition try_except {A : Type} (body : M A) (handler : exn -> M A) : M A :=
  fun w =>
    match body w with
    | (Ok a, w') => (Ok a, w')
    | (Raise e, w') => handler e w'
    end.

(** [a and b] on conditions that may raise: [b] is evaluated only when
    [a] holds. *)
Definition and_then (a b : M bool) : M bool :=
  bind a (fun x => if x then b else ret false).

(** [parts[i] == s]. *)
Definition seg_is (parts : list string) (i : nat) (s : string) : M bool :=
  bind (lift (getitem parts i)) (fun x => ret (String.eqb x s)).
End Monad.

Notation "'let*' x := c 'in' k" := (bind c (fun x => k))
  (at level 10, x name, c at level 100, k at level 200).
Notation "c >> k" := (bind c (fun _ => k))
  (at level 100, k at level 200, right associativity).

(** ** Jobs and messages *)

(** The dictionary [create_job] builds; ['responses'] is set by the first
    response. *)
Record Job : Type := {
  job_id : string;
  type : value;
  timestamp : string;
  target_vehicles : value;
  parameters : value;
  status : string;
  responses : option (list value)
}.

(** The job as the value handed to [json.dumps] and [jsonify]. *)
Definition job_value (j : Job) : value :=
  VDict ([("job_id", VStr (job_id j)); ("type", type j);
          ("timestamp", VStr (timestamp j));
          ("target_vehicles", target_vehicles j);
          ("parameters", parameters j); ("status", VStr (status j))]
         ++ match responses j with
            | Some rs => [("responses", VList rs)]
            | None => []
            end).

(** [job['responses'] = job.get('responses', [])] and then
    [job['responses'].append(message)]. *)
Definition append_response (j : Job) (message : value) : Job :=
  let rs := default [] (responses j) in
  {| job_id := job_id j; type := type j; timestamp := timestamp j;
     target_vehicles := target_vehicles j; parameters := parameters j;
     status := status j; responses := Some (rs ++ [message]) |}.

(** A message as the MQTT client delivers it. *)
Record MQTTMessage : Type := { topic : string; payload : list Byte.byte }.

(** [json.loads(msg.payload.decode())]. *)
Definition loads_payload `{PyLib} (p : list Byte.byte) : result value :=
  match bytes_decode p with
  | None => Raise UnicodeDecodeError
  | Some text =>
      match json_loads text with
      | None => Raise JSONDecodeError
      | Some v => Ok v
      end
  end.

(** The kinds of message the protocol has. *)
Inductive MessageKind : Type :=
| VehicleStatus
| VehicleEmergency
| InfrastructureUpdate
| EmergencyBroadcast
| JobAssignment
| JobResponse.

(** The topic a message of each kind is published on, as the f-strings and
    literals of the two programs build it: [publish_cam_message],
    [simulate_infrastructure], [create_emergency_event], [create_job] and
    [send_responses]. No code publishes a vehicle emergency; its topic is
    the subscription [v2x/vehicles/+/emergency] with the identifier in the
    place of [+]. The broadcast topic carries no identifier. *)
Definition format_topic (kind : MessageKind) (id : string) : string :=
  match kind with
  | VehicleStatus => "v2x/vehicles/" +:+ id +:+ "/status"
  | VehicleEmergency => "v2x/vehicles/" +:+ id +:+ "/emergency"
  | InfrastructureUpdate => "v2x/infrastructure/" +:+ id
  | EmergencyBroadcast => "v2x/emergency/broadcast"
  | JobAssignment => "v2x/jobs/" +:+ id +:+ "/assign"
  | JobResponse => "v2x/jobs/" +:+ id +:+ "/response"
  end.

(** Does a topic match a subscription filter? [+] stands for exactly one
    level (the filters of the two programs use no other wildcard). *)
Fixpoint levels_match (filter levels : list string) : bool :=
  match filter, levels with
  | [], [] => true
  | f :: fs, l :: ls => (String.eqb f "+" || String.eqb f l) && levels_match fs ls
  | _, _ => false
  end.

Definition topic_matches (filter topic : string) : bool :=
  levels_match (split "/" filter) (split "/" topic).

(** * app.py *)

Module App.

(** The dashboard's dictionaries and list ([__init__]). *)
Record Car2XDashboard : Type := {
  vehicles : gmap string value;
  infrastructure : gmap string value;
  emergencies : list value;
  jobs : gmap string Job
}.

Definition init : Car2XDashboard :=
  {| vehicles := ∅; infrastructure := ∅; emergencies := []; jobs := ∅ |}.

(** The topics [on_mqtt_connect] subscribes to. *)
Definition subscriptions : list string :=
  ["v2x/vehicles/+/status"; "v2x/vehicles/+/emergency"; "v2x/infrastructure/+";
   "v2x/emergency/broadcast"; "v2x/jobs/+/response"].

(** [self.vehicles[vehicle_id] = message] *)
Definition set_vehicle (vehicle_id : string) (message : value) (d : Car2XDashboard)
    : Car2XDashboard :=
  {| vehicles := <[vehicle_id := message]> (vehicles d);
     infrastructure := infrastructure d; emergencies := emergencies d; jobs := jobs d |}.

(** [self.infrastructure[infra_id] = message] *)
Definition set_infrastructure (infra_id : string) (message : value) (d : Car2XDashboard)
    : Car2XDashboard :=
  {| vehicles := vehicles d;
     infrastructure := <[infra_id := message]> (infrastructure d);
     emergencies := emergencies d; jobs := jobs d |}.

(** [self.emergencies.append(message)] *)
Definition append_emergency (message : value) (d : Car2XDashboard) : Car2XDashboard :=
  {| vehicles := vehicles d; infrastructure := infrastructure d;
     emergencies := emergencies d ++ [message]; jobs := jobs d |}.

(** [self.jobs[job_id] = job] *)
Definition set_job (id : string) (j : Job) (d : Car2XDashboard) : Car2XDashboard :=
  {| vehicles := vehicles d; infrastructure := infrastructure d;
     emergencies := emergencies d; jobs := <[id := j]> (jobs d) |}.

Section Handlers.
Context `{PyLib}.

(** The body of the [try] in [on_mqtt_message]. *)
Definition on_mqtt_message_body (msg : MQTTMessage) : M (S := Car2XDashboard) unit :=
  let topic_parts := split "/" (topic msg) in
  let* message := lift (loads_payload (payload msg)) in
  let* is_status :=
    and_then (seg_is topic_parts 1 "vehicles") (seg_is topic_parts 3 "status") in
  if is_status then
    let* vehicle_id := lift (getitem topic_parts 2) in
    modify (set_vehicle vehicle_id message) >>
    tell (SocketEmit "vehicle_update" message)
  else
  let* is_emergency :=
    and_then (seg_is topic_parts 1 "vehicles") (seg_is topic_parts 3 "emergency") in
  if is_emergency then
    let* vehicle_id := lift (getitem topic_parts 2) in
    tell (SocketEmit "vehicle_emergency"
            (VDict [("vehicle_id", VStr vehicle_id); ("message", message)]))
  else
  let* is_infrastructure := seg_is topic_parts 1 "infrastructure" in
  if is_infrastructure then
    let* infra_id := lift (getitem topic_parts 2) in
    modify (set_infrastructure infra_id message) >>
    tell (SocketEmit "infrastructure_update" message)
  else
  let* is_broadcast := seg_is topic_parts 1 "emergency" in
  if is_broadcast then
    modify (append_emergency message) >>
    tell (SocketEmit "emergency_alert" message)
  else
  let* is_jobs := seg_is topic_parts 1 "jobs" in
  if is_jobs then
    let* id := lift (getitem topic_parts 2) in
    let* d := get in
    match jobs d !! id with
    | Some j =>
        modify (set_job id (append_response j message)) >>
        tell (SocketEmit "job_response"
                (VDict [("job_id", VStr id); ("response", message)]))
    | None => ret tt
    end
  else ret tt.

(** [on_mqtt_message]: whatever the body raises is printed and dropped. *)
Definition on_mqtt_message (msg : MQTTMessage) : M (S := Car2XDashboard) unit :=
  try_except (on_mqtt_message_body msg)
    (fun e => tell (PrintError "Error processing MQTT message: " e)).

(** [create_job]. [u] is the integer of the UUID that [uuid.uuid4()]
    returns and [now] the text of [datetime.now().isoformat()]. *)
Definition create_job (u : Z) (now : string)
    (job_type target_vehicles parameters : value) : M (S := Car2XDashboard) string :=
  let job_id := slice 0 8 (uuid_str u) in
  let job :=
    {| job_id := job_id; type := job_type; timestamp := now;
       target_vehicles := target_vehicles;
       parameters := py_or parameters (VDict []);
       status := "pending"; responses := None |} in
  modify (set_job job_id job) >>
  tell (MqttPublish ("v2x/jobs/" +:+ job_id +:+ "/assign") (json_dumps (job_value job))) >>
  ret job_id.

(** The route [/api/emergencies]: the last ten emergencies. *)
Definition get_emergencies (d : Car2XDashboard) : list value :=
  slice_last 10 (emergencies d).

(** The route [/api/jobs]. *)
Definition get_jobs (d : Car2XDashboard) : gmap string Job := jobs d.

(** The route [/api/vehicles]. *)
Definition get_vehicles (d : Car2XDashboard) : gmap string value := vehicles d.

(** The route [/api/infrastructure]. *)
Definition get_infrastructure (d : Car2XDashboard) : gmap string value := infrastructure d.

(** The route [/api/create_job] (the module-level function [create_job])
    on the request's JSON body [data]. *)
Definition route_create_job (u : Z) (now : string) (data : value) : M (S := Car2XDashboard) value :=
  match data with
  | VDict items =>
      let* id := create_job u now (dict_get items "type" VNone)
                   (dict_get items "target_vehicles" (VList []))
                   (dict_get items "parameters" (VDict [])) in
      ret (VDict [("job_id", VStr id); ("status", VStr "created")])
  | _ => raise AttributeError
  end.

(** The messages of a list handled one after the other, in arrival order. *)
Definition deliver (msgs : list MQTTMessage) (w : world Car2XDashboard) : world Car2XDashboard :=
  fold_left (fun w msg => snd (on_mqtt_message msg w)) msgs w.
End Handlers.

(** The route [on_mqtt_message] takes through its [if] chain, as a function
    of the topic's levels alone: the branch and the identifier it reads, [None]
    when no branch is taken, [Raise IndexError] when a level it reads is
    missing. ([on_mqtt_message_routes] below shows that the handler is this
    classification followed by [dispatch].) *)
Definition classify (topic_parts : list string) : result (option (MessageKind * option string)) :=
  match getitem topic_parts 1 with
  | Raise e => Raise e
  | Ok category =>
      if String.eqb category "vehicles" then
        match getitem topic_parts 3 with
        | Raise e => Raise e
        | Ok subkind =>
            if String.eqb subkind "status" then
              match getitem topic_parts 2 with
              | Raise e => Raise e
              | Ok id => Ok (Some (VehicleStatus, Some id))
              end
            else if String.eqb subkind "emergency" then
              match getitem topic_parts 2 with
              | Raise e => Raise e
              | Ok id => Ok (Some (VehicleEmergency, Some id))
              end
            else Ok None
        end
      else if String.eqb category "infrastructure" then
        match getitem topic_parts 2 with
        | Raise e => Raise e
        | Ok id => Ok (Some (InfrastructureUpdate, Some id))
        end
      else if String.eqb category "emergency" then Ok (Some (EmergencyBroadcast, None))
      else if String.eqb category "jobs" then
        match getitem topic_parts 2 with
        | Raise e => Raise e
        | Ok id => Ok (Some (JobResponse, Some id))
        end
      else Ok None
  end.

(** What the branch of a route does with the decoded message. *)
Definition dispatch (route : option (MessageKind * option string)) (message : value)
    : M (S := Car2XDashboard) unit :=
  match route with
  | Some (VehicleStatus, Some vehicle_id) =>
      modify (set_vehicle vehicle_id message) >>
      tell (SocketEmit "vehicle_update" message)
  | Some (VehicleEmergency, Some vehicle_id) =>
      tell (SocketEmit "vehicle_emergency"
              (VDict [("vehicle_id", VStr vehicle_id); ("message", message)]))
  | Some (InfrastructureUpdate, Some infra_id) =>
      modify (set_infrastructure infra_id message) >>
      tell (SocketEmit "infrastructure_update" message)
  | Some (EmergencyBroadcast, _) =>
      modify (append_emergency message) >>
      tell (SocketEmit "emergency_alert" message)
  | Some (JobResponse, Some id) =>
      let* d := get in
      match jobs d !! id with
      | Some j =>
          modify (set_job id (append_response j message)) >>
          tell (SocketEmit "job_response"
                  (VDict [("job_id", VStr id); ("response", message)]))
      | None => ret tt
      end
  | _ => ret tt
  end.

(** The topic [parse]d the way the dashboard routes it. *)
Definition parse (topic : string) : result (option (MessageKind * option string)) :=
  classify (split "/" topic).

End App.

(** * v2x_simulator.py *)

Module Simulator.

(** The simulator's dictionaries ([__init__]); the broker's address and the
    MQTT client are left out. *)
Record V2XSimulator : Type := {
  running : bool;
  vehicles : gmap string value;
  infrastructure : gmap string value;
  jobs : gmap string Job
}.

Definition init : V2XSimulator :=
  {| running := false; vehicles := ∅; infrastructure := ∅; jobs := ∅ |}.

(** A vehicle as [simulate_vehicles] keeps it and hands it to
    [publish_cam_message]. *)
Record Vehicle : Type := {
  vehicle_id : string;
  vehicle_timestamp : string;
  position : value;
  speed : value;
  heading : value;
  vehicle_status : string
}.

(** The topics [on_connect] subscribes to. *)
Definition subscriptions : list string :=
  ["v2x/vehicles/+/status"; "v2x/vehicles/+/emergency";
   "v2x/jobs/+/assign"; "v2x/jobs/+/response"].

Definition set_vehicle (vehicle_id : string) (message : value) (s : V2XSimulator) : V2XSimulator :=
  {| running := running s; vehicles := <[vehicle_id := message]> (vehicles s);
     infrastructure := infrastructure s; jobs := jobs s |}.

Definition set_job (id : string) (j : Job) (s : V2XSimulator) : V2XSimulator :=
  {| running := running s; vehicles := vehicles s;
     infrastructure := infrastructure s; jobs := <[id := j]> (jobs s) |}.

Section Handlers.
Context `{PyLib}.

(** [handle_emergency_message] *)
Definition handle_emergency_message (vehicle_id : string) (message : value)
    : M (S := V2XSimulator) unit :=
  tell (Print "Emergency from {}: {}" [VStr vehicle_id; message]).

(** [handle_job_assignment]: the responses are published by the thread
    [send_responses] it starts, two seconds later. *)
Definition handle_job_assignment (id : string) (job_data : value)
    : M (S := V2XSimulator) unit :=
  tell (Print "Job {} assigned to vehicles" [VStr id]) >>
  tell (ThreadStart "send_responses").

(** [handle_job_response] *)
Definition handle_job_response (id : string) (response : value)
    : M (S := V2XSimulator) unit :=
  let* s := get in
  match jobs s !! id with
  | Some j =>
      modify (set_job id (append_response j response)) >>
      tell (Print "Job {} response: {}" [VStr id; response])
  | None => ret tt
  end.

(** The body of the [try] in [on_message]. *)
Definition on_message_body (msg : MQTTMessage) : M (S := V2XSimulator) unit :=
  let topic_parts := split "/" (topic msg) in
  let* message := lift (loads_payload (payload msg)) in
  let* is_status :=
    and_then (seg_is topic_parts 1 "vehicles") (seg_is topic_parts 3 "status") in
  if is_status then
    let* vehicle_id := lift (getitem topic_parts 2) in
    modify (set_vehicle vehicle_id message)
  else
  let* is_emergency :=
    and_then (seg_is topic_parts 1 "vehicles") (seg_is topic_parts 3 "emergency") in
  if is_emergency then
    let* vehicle_id := lift (getitem topic_parts 2) in
    handle_emergency_message vehicle_id message
  else
  let* is_assign :=
    and_then (seg_is topic_parts 1 "jobs") (seg_is topic_parts 3 "assign") in
  if is_assign then
    let* id := lift (getitem topic_parts 2) in
    handle_job_assignment id message
  else
  let* is_response :=
    and_then (seg_is topic_parts 1 "jobs") (seg_is topic_parts 3 "response") in
  if is_response then
    let* id := lift (getitem topic_parts 2) in
    handle_job_response id message
  else ret tt.

Definition on_message (msg : MQTTMessage) : M (S := V2XSimulator) unit :=
  try_except (on_message_body msg)
    (fun e => tell (PrintError "Error processing message: " e)).

(** [for vehicle_id in target_vehicles: self.client.publish(...)] *)
Fixpoint publish_each (targets : list string) (topic payload : string)
    : M (S := V2XSimulator) unit :=
  match targets with
  | [] => ret tt
  | _ :: rest => tell (MqttPublish topic payload) >> publish_each rest topic payload
  end.

(** [create_job]; [u] and [now] as for the dashboard's. *)
Definition create_job (u : Z) (now : string) (job_type : string)
    (target_vehicles : list string) (parameters : value) : M (S := V2XSimulator) string :=
  let job_id := slice 0 8 (uuid_str u) in
  let job :=
    {| job_id := job_id; type := VStr job_type; timestamp := now;
       target_vehicles := VList (map VStr target_vehicles);
       parameters := py_or parameters (VDict []);
       status := "pending"; responses := None |} in
  modify (set_job job_id job) >>
  publish_each target_vehicles ("v2x/jobs/" +:+ job_id +:+ "/assign")
    (json_dumps (job_value job)) >>
  tell (Print "Job created: {} for vehicles {}"
          [VStr job_type; VList (map VStr target_vehicles)]) >>
  ret job_id.

(** [publish_cam_message] *)
Definition publish_cam_message (vehicle : Vehicle) : M (S := V2XSimulator) unit :=
  let cam_message :=
    VDict [("type", VStr "CAM"); ("vehicle_id", VStr (vehicle_id vehicle));
           ("timestamp", VStr (vehicle_timestamp vehicle));
           ("position", position vehicle); ("speed", speed vehicle);
           ("heading", heading vehicle); ("status", VStr (vehicle_status vehicle))] in
  tell (MqttPublish ("v2x/vehicles/" +:+ vehicle_id vehicle +:+ "/status")
          (json_dumps cam_message)).
End Handlers.

(** The route [on_message] takes through its [if] chain
    ([on_message_routes] below). *)
Definition classify (topic_parts : list string) : result (option (MessageKind * option string)) :=
  match getitem topic_parts 1 with
  | Raise e => Raise e
  | Ok category =>
      if String.eqb category "vehicles" then
        match getitem topic_parts 3 with
        | Raise e => Raise e
        | Ok subkind =>
            if String.eqb subkind "status" then
              match getitem topic_parts 2 with
              | Raise e => Raise e
              | Ok id => Ok (Some (VehicleStatus, Some id))
              end
            else if String.eqb subkind "emergency" then
              match getitem topic_parts 2 with
              | Raise e => Raise e
              | Ok id => Ok (Some (VehicleEmergency, Some id))
              end
            else Ok None
        end
      else if String.eqb category "jobs" then
        match getitem topic_parts 3 with
        | Raise e => Raise e
        | Ok subkind =>
            if String.eqb subkind "assign" then
              match getitem topic_parts 2 with
              | Raise e => Raise e
              | Ok id => Ok (Some (JobAssignment, Some id))
              end
            else if String.eqb subkind "response" then
              match getitem topic_parts 2 with
              | Raise e => Raise e
              | Ok id => Ok (Some (JobResponse, Some id))
              end
            else Ok None
        end
      else Ok None
  end.

Definition dispatch (route : option (MessageKind * option string)) (message : value)
    : M (S := V2XSimulator) unit :=
  match route with
  | Some (VehicleStatus, Some vehicle_id) => modify (set_vehicle vehicle_id message)
  | Some (VehicleEmergency, Some vehicle_id) => handle_emergency_message vehicle_id message
  | Some (JobAssignment, Some id) => handle_job_assignment id message
  | Some (JobResponse, Some id) => handle_job_response id message
  | _ => ret tt
  end.

Definition parse (topic : string) : result (option (MessageKind * option string)) :=
  classify (split "/" topic).

(** The messages of a list handled by [on_message] one after the other,
    in arrival order. *)
Definition deliver `{PyLib} (msgs : list MQTTMessage) (s : world V2XSimulator)
    : world V2XSimulator :=
  fold_left (fun s msg => snd (on_message msg s)) msgs s.

(** [for x in v]: the items a value yields when it is iterated (a list its
    items, a string its characters, a dictionary its keys), [None] when
    it is not iterable and the [for] raises [TypeError]. *)
Definition py_iter (v : value) : option (list value) :=
  match v with
  | VList items => Some items
  | VStr s => Some (map (fun c => VStr (String c EmptyString)) (list_ascii_of_string s))
  | VDict items => Some (map (fun kv => VStr (fst kv)) items)
  | _ => None
  end.

(** The response [send_responses] builds for one vehicle. *)
Definition response_of (id : string) (vehicle_id : value) (now : string) : value :=
  VDict [("job_id", VStr id); ("vehicle_id", vehicle_id);
         ("status", VStr "acknowledged"); ("timestamp", VStr now);
         ("message", VStr "Job received and processing")].

(** The loop of [send_responses]: for each target a response is published
    and a line printed. [clock n] is the text of the [n]-th reading of
    [datetime.now().isoformat()]. *)
Fixpoint respond_each `{PyLib} (id : string) (targets : list value) (clock : nat -> string)
    (n : nat) : list effect :=
  match targets with
  | [] => []
  | vehicle_id :: rest =>
      MqttPublish ("v2x/jobs/" +:+ id +:+ "/response")
        (json_dumps (response_of id vehicle_id (clock n)))
      :: Print "Vehicle {} responded to job {}" [vehicle_id; VStr id]
      :: respond_each id rest clock (S n)
  end.

(** [send_responses], the body of the thread that [handle_job_assignment]
    starts: what the thread publishes and prints after its two seconds of
    sleep, [None] when it ends with an exception before the loop
    ([job_data] has no [get], or the targets cannot be iterated). *)
Definition send_responses `{PyLib} (id : string) (job_data : value) (clock : nat -> string)
    : option (list effect) :=
  match job_data with
  | VDict items =>
      match py_iter (dict_get items "target_vehicles" (VList [])) with
      | Some targets => Some (respond_each id targets clock 0)
      | None => None
      end
  | _ => None
  end.

End Simulator.

(** * A concrete library, for running the handlers *)

(** A stand-in for the Python library on a fragment of its inputs, used
    where a property is evaluated on concrete messages: payloads are ASCII,
    and a document is an integer, [null], [true], [false], a string
    without escapes, [[]] or [{}]. *)
Module Demo.

Definition ascii_bytes (p : list Byte.byte) : option string :=
  if forallb (fun b => (Byte.to_nat b <? 128)%nat) p
  then Some (string_of_list_ascii (map ascii_of_byte p))
  else None.

Definition digit_of (c : ascii) : option Z :=
  let n := nat_of_ascii c in
  if ((48 <=? n) && (n <=? 57))%nat then Some (Z.of_nat n - 48) else None.

Fixpoint digits (acc : Z) (s : string) : option Z :=
  match s with
  | EmptyString => Some acc
  | String c rest =>
      match digit_of c with
      | Some d => digits (10 * acc + d) rest
      | None => None
      end
  end.

Definition quote : ascii := ascii_of_nat 34.

Fixpoint string_body (s : string) : option string :=
  match s with
  | EmptyString => None
  | String c EmptyString => if Ascii.eqb c quote then Some EmptyString else None
  | String c rest =>
      if Ascii.eqb c quote || Ascii.eqb c "\"%char then None
      else option_map (String c) (string_body rest)
  end.

Definition loads (s : string) : option value :=
  if String.eqb s "null" then Some VNone
  else if String.eqb s "true" then Some (VBool true)
  else if String.eqb s "false" then Some (VBool false)
  else if String.eqb s "[]" then Some (VList [])
  else if String.eqb s "{}" then Some (VDict [])
  else match s with
       | EmptyString => None
       | String "-" (String c rest) => option_map (fun z => VInt (- z)) (digits 0 (String c rest))
       | String c rest =>
           if Ascii.eqb c quote then option_map VStr (string_body rest)
           else option_map VInt (digits 0 s)
       end.

Definition join (sep : string) (l : list string) : string :=
  match l with
  | [] => EmptyString
  | x :: xs => fold_left (fun acc y => acc +:+ sep +:+ y) xs x
  end.

Definition quoted (s : string) : string :=
  String quote s +:+ String quote EmptyString.

Fixpoint dumps (v : value) : string :=
  match v with
  | VNone => "null"
  | VBool true => "true"
  | VBool false => "false"
  | VInt z => pretty z
  | VFloat bits => "float.fromhex(" +:+ pretty bits +:+ ")"
  | VStr s => quoted s
  | VList l => "[" +:+ join ", " (map dumps l) +:+ "]"
  | VDict l =>
      "{" +:+ join ", " (map (fun kv => quoted (fst kv) +:+ ": " +:+ dumps (snd kv)) l) +:+ "}"
  end.

Definition lib : PyLib :=
  {| bytes_decode := ascii_bytes; json_loads := loads; json_dumps := dumps |}.

(** The bytes of an ASCII text. *)
Definition bytes (s : string) : list Byte.byte := list_byte_of_string s.

Definition start : world App.Car2XDashboard := World App.init [].

(** A message with an ASCII payload. *)
Definition message (t text : string) : MQTTMessage :=
  {| topic := t; payload := bytes text |}.

(** Two UUIDs with the same top 32 bits, and a reading of the clock. *)
Definition uuid1 : Z := 0xdeadbeef0123456789abcdef01234567.
Definition uuid2 : Z := 0xdeadbeeffedc4a98b6543210fedcba98.
Definition noon : string := "2024-01-01T12:00:00".

(** [n] broadcasts of the event [7]. *)
Definition broadcasts (n : nat) : list MQTTMessage :=
  repeat (message "v2x/emergency/broadcast" "7") n.

(** The dashboard after a diagnostic job for two vehicles was created. *)
Definition with_diagnostic_job : world App.Car2XDashboard :=
  snd (App.create_job (H := lib) uuid1 noon (VStr "diagnostic")
         (VList [VStr "V001"; VStr "V002"]) VNone start).

End Demo.

(** * Vocabulary of the properties *)

Definition error_context : string := "Error processing MQTT message: ".

(** The world after the handler printed an exception. *)
Definition printed {S : Type} (e : exn) (w : world S) : world S :=
  World (self w) (trace w ++ [PrintError error_context e]).

(** The levels of a message's topic. *)
Definition levels (msg : MQTTMessage) : list string := split "/" (topic msg).

(** A status message for the vehicle [id]: a topic whose second, third and
    fourth levels are [vehicles], [id] and [status]. *)
Definition is_status_for (id : string) (msg : MQTTMessage) : Prop :=
  levels msg !! 1%nat = Some "vehicles" /\
  levels msg !! 2%nat = Some id /\
  levels msg !! 3%nat = Some "status".

(** A broadcast message carrying the event [event]. *)
Definition is_broadcast_of `{PyLib} (msg : MQTTMessage) (event : value) : Prop :=
  levels msg !! 1%nat = Some "emergency" /\ loads_payload (payload msg) = Ok event.

(** Does the dashboard's [if] chain take a branch on the topic? *)
Definition routed (msg : MQTTMessage) : bool :=
  match App.classify (levels msg) with
  | Ok (Some _) => true
  | _ => false
  end.

(** Does the payload decode? *)
Definition decodes `{PyLib} (msg : MQTTMessage) : bool :=
  match loads_payload (payload msg) with
  | Ok _ => true
  | Raise _ => false
  end.

(** Does the topic match one of the dashboard's subscriptions? *)
Definition subscribed (topic : string) : bool :=
  existsb (fun filter => topic_matches filter topic) App.subscriptions.

(** The record [create_job] stores: pending, with no response yet. *)
Definition pending_job (id now : string) (job_type target_vehicles parameters : value) : Job :=
  {| job_id := id; type := job_type; timestamp := now;
     target_vehicles := target_vehicles;
     parameters := py_or parameters (VDict []);
     status := "pending"; responses := None |}.

(** A job with its list of responses set. *)
Definition with_responses (j : Job) (rs : list value) : Job :=
  {| job_id := job_id j; type := type j; timestamp := timestamp j;
     target_vehicles := target_vehicles j; parameters := parameters j;
     status := status j; responses := Some rs |}.

(** A response message for the job [id] carrying [response]: a topic
    whose second and third levels are [jobs] and [id]. *)
Definition is_response_for `{PyLib} (id : string) (msg : MQTTMessage) (response : value) : Prop :=
  levels msg !! 1%nat = Some "jobs" /\
  levels msg !! 2%nat = Some id /\
  loads_payload (payload msg) = Ok response.

(** The identifier [create_job] derives from a UUID. *)
Definition job_id_of (u : Z) : string := slice 0 8 (uuid_str u).

(** ** Vocabulary of the further properties *)

(** What reaches the dashboard from outside: a message from the broker or
    a request to [/api/create_job] (with the UUID and the clock reading the
    request will draw). *)
Inductive request : Type :=
| Message (msg : MQTTMessage)
| CreateJob (u : Z) (now : string) (data : value).

(** The dashboard after one request; an exception of the route leaves it
    where the route raised. *)
Definition serve `{PyLib} (r : request) (w : world App.Car2XDashboard)
    : world App.Car2XDashboard :=
  match r with
  | Message msg => snd (App.on_mqtt_message msg w)
  | CreateJob u now data => snd (App.route_create_job u now data w)
  end.

(** The dashboard after a list of requests, served in order. *)
Definition serve_all `{PyLib} (rs : list request) (w : world App.Car2XDashboard)
    : world App.Car2XDashboard :=
  fold_left (fun w r => serve r w) rs w.

(** The dashboard as the program starts it. *)
Definition fresh : world App.Car2XDashboard := World App.init [].

(** The topics of the MQTT messages published in a trace, oldest first. *)
Fixpoint published_topics (t : list effect) : list string :=
  match t with
  | [] => []
  | MqttPublish topic _ :: rest => topic :: published_topics rest
  | _ :: rest => published_topics rest
  end.

(** What holds of every record of a job registry the dashboard can reach. *)
Definition registry_ok (d : App.Car2XDashboard) : Prop :=
  forall (id : string) (j : Job),
    App.jobs d !! id = Some j ->
    job_id j = id /\ String.length id = 8%nat /\ status j = "pending" /\
    responses j <> Some [].

(** A job that a later state still holds, with more responses at most:
    every field but the responses is the same, and the responses of
    before are the first of the responses of after. *)
Definition job_extends (before after : Job) : Prop :=
  job_id after = job_id before /\ type after = type before /\
  timestamp after = timestamp before /\
  target_vehicles after = target_vehicles before /\
  parameters after = parameters before /\ status after = status before /\
  exists more, default [] (responses after) = default [] (responses before) ++ more.

(** A dashboard that a later one extends: every vehicle, infrastructure
    element and job it holds is still held, the jobs with more responses
    at most, and its emergency history is the beginning of the later
    one. *)
Definition only_grows (before after : App.Car2XDashboard) : Prop :=
  (forall id, is_Some (App.vehicles before !! id) -> is_Some (App.vehicles after !! id)) /\
  (forall id, is_Some (App.infrastructure before !! id) ->
              is_Some (App.infrastructure after !! id)) /\
  (exists more, App.emergencies after = App.emergencies before ++ more) /\
  (forall id j, App.jobs before !! id = Some j ->
                exists j', App.jobs after !! id = Some j' /\ job_extends j j').

(** The value of a hex digit, [None] for any other character. *)
Definition hex_digit_value (c : ascii) : option Z :=
  let n := Z.of_nat (nat_of_ascii c) in
  if (48 <=? n) && (n <=? 57) then Some (n - 48)
  else if (97 <=? n) && (n <=? 102) then Some (n - 87)
  else None.

(** The number a text of hex digits writes, most significant digit first. *)
Fixpoint hex_value (acc : Z) (s : string) : option Z :=
  match s with
  | EmptyString => Some acc
  | String c rest =>
      match hex_digit_value c with
      | Some d => hex_value (16 * acc + d) rest
      | None => None
      end
  end.

(** The levels of a topic joined again. *)
Fixpoint join_levels (parts : list string) : string :=
  match parts with
  | [] => EmptyString
  | [p] => p
  | p :: rest => p +:+ String "/" (join_levels rest)
  end.

(** The simulator as the program starts it. *)
Definition simulator_fresh : world Simulator.V2XSimulator := World Simulator.init [].

(** The text [on_message] prints before an exception. *)
Definition simulator_error_context : string := "Error processing message: ".

(** Does the topic match one of the simulator's subscriptions? *)
Definition simulator_subscribed (topic : string) : bool :=
  existsb (fun filter => topic_matches filter topic) Simulator.subscriptions.

(** * Properties *)

(** ** Splitting a topic *)

Lemma split_no_sep (sep : ascii) (s : string) :
  contains sep s = false -> split sep s = [s].
Proof.
  induction s as [|c s IH]; simpl; [reflexivity|].
  intros Hc. apply orb_false_elim in Hc as [Hc Hs].
  rewrite Hc, (IH Hs). reflexivity.
Qed.

Lemma split_app (sep : ascii) (a b : string) :
  contains sep a = false ->
  split sep (a +:+ String sep b) = a :: split sep b.
Proof.
  induction a as [|c a IH]; simpl.
  - intros _. rewrite Ascii.eqb_refl. reflexivity.
  - intros Hc. apply orb_false_elim in Hc as [Hc Ha].
    rewrite Hc, (IH Ha). reflexivity.
Qed.

Lemma split_nonempty (sep : ascii) (s : string) : split sep s <> [].
Proof.
  destruct s as [|c s]; simpl; [discriminate|].
  destruct (Ascii.eqb c sep); [discriminate|].
  destruct (split sep s); discriminate.
Qed.

(** No piece of a split contains the separator. *)
Lemma split_pieces (sep : ascii) (s piece : string) :
  In piece (split sep s) -> contains sep piece = false.
Proof.
  revert piece. induction s as [|c s IH]; simpl; intros piece Hin.
  - destruct Hin as [<-|[]]. reflexivity.
  - destruct (Ascii.eqb c sep) eqn:Hc.
    + destruct Hin as [<-|Hin]; [reflexivity|auto].
    + destruct (split sep s) as [|p ps] eqn:Hs.
      * destruct Hin as [<-|[]]. simpl. rewrite Hc. reflexivity.
      * destruct Hin as [<-|Hin].
        -- simpl. rewrite Hc. simpl. apply IH. left. reflexivity.
        -- apply IH. right. exact Hin.
Qed.

Lemma contains_app (c : ascii) (a b : string) :
  contains c (a +:+ b) = contains c a || contains c b.
Proof.
  induction a as [|x a IH]; simpl; [reflexivity|].
  rewrite IH. apply orb_assoc.
Qed.

(** ** The handlers follow their routes *)

Ltac eqb_cases :=
  repeat match goal with
    | |- context [String.eqb ?a ?b] =>
        let E := fresh "E" in
        destruct (String.eqb a b) eqn:E;
        [apply String.eqb_eq in E; subst; simpl in *; try discriminate | simpl]
    end.

Section Routes.
Context `{PyLib}.

(** [on_mqtt_message] classifies the topic and runs the branch. *)
Lemma on_mqtt_message_routes (msg : MQTTMessage) (w : world App.Car2XDashboard) :
  App.on_mqtt_message_body msg w =
  (let* message := lift (loads_payload (payload msg)) in
   let* route := lift (App.classify (split "/" (topic msg))) in
   App.dispatch route message) w.
Proof.
  cbv beta iota zeta delta [App.on_mqtt_message_body App.classify App.dispatch
    bind lift and_then seg_is ret getitem].
  destruct (loads_payload (payload msg)) as [message|e]; [|reflexivity].
  destruct (split "/" (topic msg)) as [|p0 [|p1 [|p2 [|p3 rest]]]]; simpl;
    try reflexivity; eqb_cases; reflexivity.
Qed.

Lemma on_message_routes (msg : MQTTMessage) (w : world Simulator.V2XSimulator) :
  Simulator.on_message_body msg w =
  (let* message := lift (loads_payload (payload msg)) in
   let* route := lift (Simulator.classify (split "/" (topic msg))) in
   Simulator.dispatch route message) w.
Proof.
  cbv beta iota zeta delta [Simulator.on_message_body Simulator.classify
    Simulator.dispatch bind lift and_then seg_is ret getitem].
  destruct (loads_payload (payload msg)) as [message|e]; [|reflexivity].
  destruct (split "/" (topic msg)) as [|p0 [|p1 [|p2 [|p3 rest]]]]; simpl;
    try reflexivity; eqb_cases; reflexivity.
Qed.
End Routes.

(** ** What one delivery does *)

Section Delivery.
Context `{PyLib}.

Lemma dispatch_returns route message (w : world App.Car2XDashboard) :
  fst (App.dispatch route message w) = Ok tt.
Proof.
  destruct route as [[[] [id|]]|]; try reflexivity.
  cbv beta iota zeta delta [App.dispatch bind get fst self].
  destruct w as [d t]. simpl. destruct (App.jobs d !! id); reflexivity.
Qed.

(** The handler in closed form: a payload that does not decode and a
    topic whose route raises are printed, everything else is
    dispatched. *)
Lemma on_mqtt_message_eq (msg : MQTTMessage) (w : world App.Car2XDashboard) :
  App.on_mqtt_message msg w =
  match loads_payload (payload msg) with
  | Raise e => (Ok tt, printed e w)
  | Ok message =>
      match App.classify (split "/" (topic msg)) with
      | Raise e => (Ok tt, printed e w)
      | Ok route => App.dispatch route message w
      end
  end.
Proof.
  unfold App.on_mqtt_message, try_except. rewrite on_mqtt_message_routes.
  cbv beta iota zeta delta [bind lift].
  destruct (loads_payload (payload msg)) as [message|e]; [|reflexivity].
  destruct (App.classify (split "/" (topic msg))) as [route|e]; [|reflexivity].
  pose proof (dispatch_returns route message w) as Hret.
  destruct (App.dispatch route message w) as [[u|e] w']; simpl in Hret.
  - reflexivity.
  - discriminate.
Qed.

(** No exception escapes the handler. *)
Lemma on_mqtt_message_returns (msg : MQTTMessage) (w : world App.Car2XDashboard) :
  fst (App.on_mqtt_message msg w) = Ok tt.
Proof.
  rewrite on_mqtt_message_eq.
  destruct (loads_payload (payload msg)); [|reflexivity].
  destruct (App.classify (split "/" (topic msg))); [|reflexivity].
  apply dispatch_returns.
Qed.

Lemma deliver_app (l1 l2 : list MQTTMessage) (w : world App.Car2XDashboard) :
  App.deliver (l1 ++ l2) w = App.deliver l2 (App.deliver l1 w).
Proof. unfold App.deliver. apply fold_left_app. Qed.

Lemma deliver_cons (m : MQTTMessage) (l : list MQTTMessage) (w : world App.Car2XDashboard) :
  App.deliver (m :: l) w = App.deliver l (snd (App.on_mqtt_message m w)).
Proof. reflexivity. Qed.
End Delivery.

(** Routes read off a topic's levels. *)
Section Classify.
Variable parts : list string.

Lemma classify_status (id : string) :
  parts !! 1%nat = Some "vehicles" -> parts !! 2%nat = Some id ->
  parts !! 3%nat = Some "status" ->
  App.classify parts = Ok (Some (VehicleStatus, Some id)).
Proof. unfold App.classify, getitem. intros -> -> ->. reflexivity. Qed.

Lemma classify_vehicle_emergency :
  parts !! 1%nat = Some "vehicles" -> parts !! 3%nat = Some "emergency" ->
  exists id, parts !! 2%nat = Some id /\
             App.classify parts = Ok (Some (VehicleEmergency, Some id)).
Proof.
  unfold App.classify, getitem. intros H1 H3.
  destruct parts as [|p0 [|p1 [|p2 [|p3 rest]]]]; try discriminate.
  simpl in *. injection H1 as ->. injection H3 as ->.
  exists p2. split; reflexivity.
Qed.

Lemma classify_infrastructure (id : string) :
  parts !! 1%nat = Some "infrastructure" -> parts !! 2%nat = Some id ->
  App.classify parts = Ok (Some (InfrastructureUpdate, Some id)).
Proof. unfold App.classify, getitem. intros -> ->. reflexivity. Qed.

Lemma classify_emergency :
  parts !! 1%nat = Some "emergency" ->
  App.classify parts = Ok (Some (EmergencyBroadcast, None)).
Proof. unfold App.classify, getitem. intros ->. reflexivity. Qed.

Lemma classify_jobs (id : string) :
  parts !! 1%nat = Some "jobs" -> parts !! 2%nat = Some id ->
  App.classify parts = Ok (Some (JobResponse, Some id)).
Proof. unfold App.classify, getitem. intros -> ->. reflexivity. Qed.

(** The only route that writes a vehicle is the status route. *)
Lemma classify_status_inv (id : string) :
  App.classify parts = Ok (Some (VehicleStatus, Some id)) ->
  parts !! 1%nat = Some "vehicles" /\ parts !! 2%nat = Some id /\
  parts !! 3%nat = Some "status".
Proof.
  unfold App.classify, getitem.
  destruct parts as [|p0 [|p1 [|p2 [|p3 rest]]]]; simpl; try discriminate;
    eqb_cases; try discriminate.
  intros [= ->]. auto.
Qed.
End Classify.

(** ** Responses to unknown jobs, infrastructure updates, vehicle emergencies *)

Section SingleMessage.
Context `{PyLib}.
Variable msg : MQTTMessage.
Variable w : world App.Car2XDashboard.

(** C3. A response on [v2x/jobs/{id}/...] whose job identifier is not a
    key of the job registry does not raise, and the dashboard (its job
    records included) is left exactly as it was: no response list
    receives the response, and nothing is forwarded to observers. *)
Theorem unknown_job_response_ignored (id : string) :
  levels msg !! 1%nat = Some "jobs" ->
  levels msg !! 2%nat = Some id ->
  App.jobs (self w) !! id = None ->
  let after := App.on_mqtt_message msg w in
  fst after = Ok tt /\
  self (snd after) = self w /\
  App.get_jobs (self (snd after)) = App.get_jobs (self w) /\
  forall event data, ~ In (SocketEmit event data) (skipn (length (trace w)) (trace (snd after))).
Proof.
  intros H1 H2 Hjob after. subst after. unfold levels in *.
  rewrite on_mqtt_message_eq, (classify_jobs _ id H1 H2).
  assert (Hdrop : forall t e, skipn (length t) (t ++ [PrintError error_context e]) =
                              [PrintError error_context e]).
  { intros t e. rewrite drop_app_length. reflexivity. }
  destruct (loads_payload (payload msg)) as [message|e]; simpl.
  - cbv beta iota zeta delta [bind get]. rewrite Hjob. simpl.
    repeat split; try reflexivity.
    intros event data. rewrite skipn_all. simpl. tauto.
  - repeat split; try reflexivity.
    intros event data. rewrite Hdrop. simpl. intros [Hin|[]]. discriminate.
Qed.

(** C9. An infrastructure update is stored under the third level of its
    topic, whatever [infrastructure_id] the payload carries: the entry of
    that level becomes the decoded payload and every other entry (the
    one of the payload's own identifier too, when it differs) is
    untouched. *)
Theorem infrastructure_keyed_by_topic (id : string) (message : value) :
  levels msg !! 1%nat = Some "infrastructure" ->
  levels msg !! 2%nat = Some id ->
  loads_payload (payload msg) = Ok message ->
  let after := self (snd (App.on_mqtt_message msg w)) in
  App.infrastructure after !! id = Some message /\
  App.infrastructure after = <[id := message]> (App.infrastructure (self w)) /\
  forall payload_id : string,
    payload_id <> id ->
    App.infrastructure after !! payload_id = App.infrastructure (self w) !! payload_id.
Proof.
  intros H1 H2 Hload after. subst after. unfold levels in *.
  rewrite on_mqtt_message_eq, Hload, (classify_infrastructure _ id H1 H2). simpl.
  split; [apply lookup_insert_eq|]. split; [reflexivity|].
  intros payload_id Hne. apply lookup_insert_ne. congruence.
Qed.

(** C10. A single vehicle's emergency ([v2x/vehicles/{id}/emergency])
    changes none of the stores: vehicles, infrastructure, jobs and the
    emergency history that [get_emergencies] replays stay as they were.
    When the payload decodes, the one effect is the event forwarded to
    the observers. *)
Theorem vehicle_emergency_changes_no_store :
  levels msg !! 1%nat = Some "vehicles" ->
  levels msg !! 3%nat = Some "emergency" ->
  let after := snd (App.on_mqtt_message msg w) in
  self after = self w /\
  App.get_emergencies (self after) = App.get_emergencies (self w) /\
  forall message, loads_payload (payload msg) = Ok message ->
    exists vehicle_id,
      levels msg !! 2%nat = Some vehicle_id /\
      trace after = trace w ++
        [SocketEmit "vehicle_emergency"
           (VDict [("vehicle_id", VStr vehicle_id); ("message", message)])].
Proof.
  intros H1 H3 after. subst after. unfold levels in *.
  destruct (classify_vehicle_emergency _ H1 H3) as (vid & H2 & Hc).
  rewrite on_mqtt_message_eq, Hc.
  destruct (loads_payload (payload msg)) as [message|e]; simpl.
  - repeat split; try reflexivity.
    intros m [= <-]. exists vid. split; [exact H2|reflexivity].
  - repeat split; try reflexivity. intros m Hm. discriminate.
Qed.
End SingleMessage.

(** ** The vehicle store: last write wins *)

Section VehicleStore.
Context `{PyLib}.

Lemma status_sets_vehicle (id : string) (s : value) (msg : MQTTMessage)
    (w : world App.Car2XDashboard) :
  is_status_for id msg -> loads_payload (payload msg) = Ok s ->
  App.vehicles (self (snd (App.on_mqtt_message msg w))) =
  <[id := s]> (App.vehicles (self w)).
Proof.
  intros (H1 & H2 & H3) Hload. unfold levels in *.
  rewrite on_mqtt_message_eq, Hload, (classify_status _ id H1 H2 H3).
  reflexivity.
Qed.

(** A message that is not routed to the status branch for [id] leaves the
    vehicle [id] alone. *)
Lemma other_keeps_vehicle (id : string) (msg : MQTTMessage) (w : world App.Car2XDashboard) :
  App.classify (levels msg) <> Ok (Some (VehicleStatus, Some id)) ->
  App.vehicles (self (snd (App.on_mqtt_message msg w))) !! id = App.vehicles (self w) !! id.
Proof.
  intros Hroute. unfold levels in *. rewrite on_mqtt_message_eq.
  destruct (loads_payload (payload msg)) as [message|e]; [|reflexivity].
  destruct (App.classify (split "/" (topic msg))) as [[[kind [i|]]|]|e];
    try destruct kind; try reflexivity.
  - simpl. apply lookup_insert_ne. congruence.
  - cbv beta iota zeta delta [App.dispatch bind get]. simpl.
    destruct (App.jobs (self w) !! i); reflexivity.
Qed.

Lemma others_keep_vehicle (id : string) (msgs : list MQTTMessage) :
  Forall (fun m => App.classify (levels m) <> Ok (Some (VehicleStatus, Some id))) msgs ->
  forall w, App.vehicles (self (App.deliver msgs w)) !! id = App.vehicles (self w) !! id.
Proof.
  induction 1 as [|m l Hm _ IH]; intros w; [reflexivity|].
  rewrite deliver_cons, IH. apply other_keeps_vehicle, Hm.
Qed.

Lemma status_for_other (id id' : string) (msg : MQTTMessage) :
  id' <> id -> is_status_for id' msg ->
  App.classify (levels msg) <> Ok (Some (VehicleStatus, Some id)).
Proof.
  intros Hne (H1 & H2 & H3). unfold levels in *.
  rewrite (classify_status _ id' H1 H2 H3). congruence.
Qed.

(** C1. Last write wins: after a status message for [id] carrying [s1] and
    a later one carrying [s2], the vehicle store holds [s2] for [id],
    whatever status messages for other identifiers arrive in between or
    afterwards, and whatever the two snapshots are. *)
Theorem last_write_wins (id : string) (s1 s2 : value) (m1 m2 : MQTTMessage)
    (between after : list MQTTMessage) (w : world App.Car2XDashboard) :
  is_status_for id m1 -> loads_payload (payload m1) = Ok s1 ->
  is_status_for id m2 -> loads_payload (payload m2) = Ok s2 ->
  Forall (fun m => exists id', id' <> id /\ is_status_for id' m) (between ++ after) ->
  App.get_vehicles (self (App.deliver (m1 :: between ++ m2 :: after) w)) !! id = Some s2.
Proof.
  intros Hm1 Hs1 Hm2 Hs2 Hothers. unfold App.get_vehicles.
  assert (Hkeep : Forall (fun m => App.classify (levels m) <>
                                   Ok (Some (VehicleStatus, Some id))) (between ++ after)).
  { eapply Forall_impl; [exact Hothers|].
    intros m (id' & Hne & Hst). simpl. exact (status_for_other id id' m Hne Hst). }
  apply Forall_app in Hkeep as [_ Hafter].
  rewrite deliver_cons, deliver_app, deliver_cons.
  rewrite (others_keep_vehicle id after Hafter).
  rewrite (status_sets_vehicle id s2 m2 _ Hm2 Hs2).
  apply lookup_insert_eq.
Qed.
End VehicleStore.

(** ** Messages that are dropped *)

Section Dropped.
Context `{PyLib}.

(** The topics the dashboard's [if] chain takes a branch on. *)
Lemma routed_iff (msg : MQTTMessage) :
  routed msg = true <->
  (levels msg !! 1%nat = Some "vehicles" /\
     (levels msg !! 3%nat = Some "status" \/ levels msg !! 3%nat = Some "emergency")) \/
  (levels msg !! 1%nat = Some "infrastructure" /\ is_Some (levels msg !! 2%nat)) \/
  levels msg !! 1%nat = Some "emergency" \/
  (levels msg !! 1%nat = Some "jobs" /\ is_Some (levels msg !! 2%nat)).
Proof.
  unfold routed, App.classify, getitem.
  destruct (levels msg) as [|p0 [|p1 [|p2 [|p3 rest]]]]; simpl.
  1-2: split; [discriminate|]; intros [[? _]|[[? _]|[?|[? _]]]]; discriminate.
  all: eqb_cases;
    repeat match goal with
      | E : String.eqb _ _ = false |- _ => apply String.eqb_neq in E
      end;
    (split; [try discriminate; intros _|intros Hcase]).
  all: try (left; split; [reflexivity|]; eauto; fail).
  all: try (right; left; split; [reflexivity|]; eauto; fail).
  all: try (right; right; left; reflexivity).
  all: try (right; right; right; split; [reflexivity|]; eauto; fail).
  all: try reflexivity.
  all: destruct Hcase as [[? [?|?]]|[[? [? ?]]|[?|[? [? ?]]]]]; congruence.
Qed.

(** C5, as the handler has it. A message whose payload does not decode, or
    whose topic the [if] chain takes no branch on (a level the selected
    branch reads is missing, as in [v2x/vehicles/status], or the second
    level is none the chain knows), is dropped: no exception escapes, the
    vehicles, the infrastructure, the job registry and the emergency
    history are unchanged, and the only effect is the printed diagnostic,
    if any. *)
Theorem undecodable_or_unrouted_is_dropped (msg : MQTTMessage) (w : world App.Car2XDashboard) :
  decodes msg = false \/ routed msg = false ->
  let after := App.on_mqtt_message msg w in
  fst after = Ok tt /\
  self (snd after) = self w /\
  (trace (snd after) = trace w \/
   exists e, trace (snd after) = trace w ++ [PrintError error_context e]).
Proof.
  intros Hdrop after. subst after. unfold decodes, routed, levels in Hdrop.
  rewrite on_mqtt_message_eq.
  destruct (loads_payload (payload msg)) as [message|e].
  - destruct Hdrop as [Hdrop|Hdrop]; [discriminate|].
    destruct (App.classify (split "/" (topic msg))) as [[route|]|e]; [discriminate| |].
    + simpl. auto.
    + simpl. eauto.
  - simpl. eauto.
Qed.
End Dropped.

(** ** The emergency history *)

Section EmergencyHistory.
Context `{PyLib}.

Lemma broadcast_appends (msg : MQTTMessage) (event : value) (w : world App.Car2XDashboard) :
  is_broadcast_of msg event ->
  self (snd (App.on_mqtt_message msg w)) = App.append_emergency event (self w).
Proof.
  intros [H1 Hload]. unfold levels in *.
  rewrite on_mqtt_message_eq, Hload, (classify_emergency _ H1). reflexivity.
Qed.

(** Every broadcast is kept: the history after a run of broadcasts is the
    history before it followed by all their events. *)
Lemma broadcasts_append (msgs : list MQTTMessage) (events : list value) :
  Forall2 is_broadcast_of msgs events ->
  forall w, App.emergencies (self (App.deliver msgs w)) = App.emergencies (self w) ++ events.
Proof.
  induction 1 as [|m e ms es Hm _ IH]; intros w.
  - simpl. rewrite app_nil_r. reflexivity.
  - rewrite deliver_cons, IH, (broadcast_appends m e w Hm). simpl.
    rewrite <- app_assoc. reflexivity.
Qed.

Lemma slice_last_length {A : Type} (n : nat) (l : list A) :
  length (slice_last n l) = Nat.min n (length l).
Proof. unfold slice_last. rewrite length_drop. lia. Qed.

Lemma slice_last_app {A : Type} (n : nat) (older l : list A) :
  (n <= length l)%nat -> slice_last n (older ++ l) = slice_last n l.
Proof.
  intros Hn. unfold slice_last. rewrite length_app.
  replace (length older + length l - n)%nat with (length older + (length l - n))%nat by lia.
  rewrite drop_app_add'; reflexivity.
Qed.

(** C4, as the code has it. The emergency history has no capacity and
    evicts nothing: after [N] broadcasts it holds what it held before
    followed by all [N] events in arrival order. [get_emergencies]
    returns the last ten of them (all of them when there are fewer), the
    most recent last; once ten or more were broadcast, these are exactly
    the last ten events broadcast. *)
Theorem emergency_history_is_append_only (msgs : list MQTTMessage) (events : list value)
    (w : world App.Car2XDashboard) :
  Forall2 is_broadcast_of msgs events ->
  let after := self (App.deliver msgs w) in
  App.emergencies after = App.emergencies (self w) ++ events /\
  length (App.emergencies after) = (length (App.emergencies (self w)) + length msgs)%nat /\
  length (App.get_emergencies after) = Nat.min 10 (length (App.emergencies after)) /\
  (exists older, App.emergencies after = older ++ App.get_emergencies after) /\
  ((10 <= length events)%nat ->
   App.get_emergencies after = drop (length events - 10) events).
Proof.
  intros Hmsgs after. subst after.
  pose proof (Forall2_length _ _ _ Hmsgs) as Hlen.
  pose proof (broadcasts_append msgs events Hmsgs w) as Hall.
  unfold App.get_emergencies. rewrite !Hall.
  split; [reflexivity|]. split; [rewrite length_app; lia|].
  split; [apply slice_last_length|]. split.
  - exists (take (length (App.emergencies (self w) ++ events) - 10)
              (App.emergencies (self w) ++ events)).
    unfold slice_last. symmetry. apply take_drop.
  - intros Hten. apply slice_last_app. exact Hten.
Qed.
End EmergencyHistory.

(** ** Job identifiers *)

Lemma length_append (a b : string) :
  String.length (a +:+ b) = (String.length a + String.length b)%nat.
Proof. induction a as [|c a IH]; simpl; [reflexivity|]. rewrite IH. reflexivity. Qed.

Lemma append_cons (c : ascii) (a b : string) : String c a +:+ b = String c (a +:+ b).
Proof. reflexivity. Qed.

Lemma append_nil_r (a : string) : a +:+ "" = a.
Proof.
  induction a as [|c a IH]; [reflexivity|]. rewrite append_cons, IH. reflexivity.
Qed.

Lemma append_assoc (a b c : string) : (a +:+ b) +:+ c = a +:+ (b +:+ c).
Proof.
  induction a as [|x a IH]; [reflexivity|]. rewrite !append_cons, IH. reflexivity.
Qed.

Lemma length_hex_fixed (w : nat) (z : Z) : String.length (hex_fixed w z) = w.
Proof.
  revert z. induction w as [|w IH]; intros z; simpl; [reflexivity|].
  rewrite length_append, IH. simpl. lia.
Qed.

Lemma hex_fixed_app (n m : nat) (z : Z) :
  hex_fixed (n + m) z = hex_fixed n (z / 16 ^ Z.of_nat m) +:+ hex_fixed m z.
Proof.
  revert z. induction m as [|m IH]; intros z.
  - rewrite Nat.add_0_r. simpl. rewrite Z.div_1_r, append_nil_r. reflexivity.
  - rewrite Nat.add_succ_r. simpl hex_fixed. rewrite IH.
    rewrite Z.div_div by lia.
    replace (16 * 16 ^ Z.of_nat m) with (16 ^ Z.of_nat (S m))
      by (rewrite Nat2Z.inj_succ, Z.pow_succ_r by lia; reflexivity).
    simpl hex_fixed. apply append_assoc.
Qed.

Lemma hex_digit_mod (z k : Z) : 0 < k -> hex_digit (z mod (16 * k)) = hex_digit z.
Proof.
  intros Hk. unfold hex_digit. f_equal. f_equal.
  rewrite Z.rem_mul_r by lia.
  rewrite (Z.mul_comm 16), Z.mod_add by lia. apply Z.mod_mod. lia.
Qed.

Lemma hex_fixed_mod (w : nat) (z : Z) :
  hex_fixed w z = hex_fixed w (z mod 16 ^ Z.of_nat w).
Proof.
  revert z. induction w as [|w IH]; intros z; [reflexivity|].
  rewrite Nat2Z.inj_succ, Z.pow_succ_r by lia. simpl.
  assert (Hk : 0 < 16 ^ Z.of_nat w) by (apply Z.pow_pos_nonneg; lia).
  rewrite (hex_digit_mod z _ Hk). f_equal.
  rewrite (IH (z / 16)), (IH (z mod (16 * 16 ^ Z.of_nat w) / 16)). f_equal.
  rewrite Z.rem_mul_r by lia.
  replace (z mod 16 + 16 * ((z / 16) mod 16 ^ Z.of_nat w))
    with ((z / 16) mod 16 ^ Z.of_nat w * 16 + z mod 16) by lia.
  rewrite Z.div_add_l by lia.
  rewrite (Z.div_small (z mod 16) 16) by (apply Z.mod_pos_bound; lia).
  rewrite Z.add_0_r. symmetry. apply Z.mod_mod. lia.
Qed.

Lemma hex_digit_no_slash (z : Z) : Ascii.eqb (hex_digit z) "/" = false.
Proof.
  unfold hex_digit.
  assert (Hn : (Z.to_nat (z mod 16) < 16)%nat)
    by (pose proof (Z.mod_pos_bound z 16); lia).
  generalize dependent (Z.to_nat (z mod 16)). intros n Hn.
  do 16 (destruct n as [|n]; [reflexivity|]). lia.
Qed.

Lemma hex_fixed_no_slash (w : nat) (z : Z) : contains "/" (hex_fixed w z) = false.
Proof.
  revert z. induction w as [|w IH]; intros z; simpl; [reflexivity|].
  rewrite contains_app, IH. simpl. rewrite hex_digit_no_slash. reflexivity.
Qed.

Lemma substring_prefix (a b : string) : substring 0 (String.length a) (a +:+ b) = a.
Proof.
  induction a as [|c a IH]; simpl.
  - destruct b; reflexivity.
  - rewrite IH. reflexivity.
Qed.

Lemma substring_whole (a : string) : substring 0 (String.length a) a = a.
Proof. induction a as [|c a IH]; simpl; [reflexivity|]. rewrite IH. reflexivity. Qed.

(** [str(uuid)[:8]] is the eight hex digits of the UUID's top 32 bits. *)
Lemma job_id_of_hex (u : Z) : job_id_of u = hex_fixed 8 ((u / 2 ^ 96) mod 2 ^ 32).
Proof.
  unfold job_id_of, uuid_str.
  change 32%nat with (8 + 24)%nat. rewrite hex_fixed_app.
  change (16 ^ Z.of_nat 24) with (2 ^ 96).
  set (top := hex_fixed 8 (u / 2 ^ 96)).
  assert (Htop : String.length top = 8%nat) by apply length_hex_fixed.
  assert (Hslice : forall rest, slice 0 8 (top +:+ rest) = top).
  { intros rest. unfold slice. simpl Nat.sub. rewrite <- Htop. apply substring_prefix. }
  rewrite !Hslice. unfold top. apply (hex_fixed_mod 8).
Qed.

Lemma job_id_no_slash (u : Z) : contains "/" (job_id_of u) = false.
Proof. rewrite job_id_of_hex. apply hex_fixed_no_slash. Qed.

Lemma length_job_id (u : Z) : String.length (job_id_of u) = 8%nat.
Proof. rewrite job_id_of_hex. apply length_hex_fixed. Qed.

(** ** The job registry *)

Section JobRegistry.
Context `{PyLib}.

(** [create_job] in closed form: it always returns, stores the pending
    record under the identifier without looking at the registry, and
    publishes one assignment. *)
Lemma create_job_eq (u : Z) (now : string) (job_type targets parameters : value)
    (w : world App.Car2XDashboard) :
  let id := job_id_of u in
  let job := pending_job id now job_type targets parameters in
  App.create_job u now job_type targets parameters w =
  (Ok id,
   World (App.set_job id job (self w))
     (trace w ++ [MqttPublish (format_topic JobAssignment id) (json_dumps (job_value job))])).
Proof. reflexivity. Qed.

Lemma append_response_eq (j : Job) (r : value) :
  append_response j r = with_responses j (default [] (responses j) ++ [r]).
Proof. reflexivity. Qed.

(** A response for a known job is appended to its record. *)
Lemma response_appended (id : string) (j : Job) (msg : MQTTMessage) (r : value)
    (w : world App.Car2XDashboard) :
  is_response_for id msg r ->
  App.jobs (self w) !! id = Some j ->
  self (snd (App.on_mqtt_message msg w)) = App.set_job id (append_response j r) (self w).
Proof.
  intros (H1 & H2 & Hload) Hj. unfold levels in *.
  rewrite on_mqtt_message_eq, Hload, (classify_jobs _ id H1 H2).
  cbv beta iota zeta delta [App.dispatch bind get]. rewrite Hj. reflexivity.
Qed.

(** The simulator's [handle_job_response] does the same to its registry. *)
Lemma handle_job_response_appends (id : string) (j : Job) (r : value)
    (s : world Simulator.V2XSimulator) :
  Simulator.jobs (self s) !! id = Some j ->
  Simulator.jobs (self (snd (Simulator.handle_job_response id r s))) =
  <[id := append_response j r]> (Simulator.jobs (self s)).
Proof.
  intros Hj. cbv beta iota zeta delta [Simulator.handle_job_response bind get].
  rewrite Hj. reflexivity.
Qed.

(** C2, as the code has it. A response for a known job is appended to the
    job's responses and the job's status stays what it was: nothing sets
    it to [active], in the dashboard's handler or in the simulator's
    [handle_job_response]. In particular, after [create_job] and a
    response from each of two targets, the job's record is the pending
    record with exactly the two responses in arrival order, and when the
    registry was empty before, [get_jobs] lists this one job. *)
Theorem responses_append_and_status_stays (u : Z) (now : string)
    (job_type targets parameters : value) (m1 m2 : MQTTMessage) (r1 r2 : value)
    (w : world App.Car2XDashboard) :
  let id := job_id_of u in
  let created := App.create_job u now job_type targets parameters w in
  let final := self (App.deliver [m1; m2] (snd created)) in
  let job := with_responses (pending_job id now job_type targets parameters) [r1; r2] in
  is_response_for id m1 r1 ->
  is_response_for id m2 r2 ->
  (forall known w0,
     App.jobs (self w0) !! id = Some known ->
     App.jobs (self (snd (App.on_mqtt_message m1 w0))) =
       <[id := append_response known r1]> (App.jobs (self w0))) /\
  (forall known s,
     Simulator.jobs (self s) !! id = Some known ->
     Simulator.jobs (self (snd (Simulator.handle_job_response id r1 s))) =
       <[id := append_response known r1]> (Simulator.jobs (self s))) /\
  (forall known,
     status (append_response known r1) = status known /\
     responses (append_response known r1) = Some (default [] (responses known) ++ [r1])) /\
  fst created = Ok id /\
  App.get_jobs final = <[id := job]> (App.jobs (self w)) /\
  App.get_jobs final !! id = Some job /\
  status job = "pending" /\ responses job = Some [r1; r2] /\
  (App.jobs (self w) = ∅ -> map_to_list (App.get_jobs final) = [(id, job)]).
Proof.
  intros id created final job Hm1 Hm2. subst created final.
  split.
  { intros known w0 Hknown.
    rewrite (response_appended id known m1 r1 w0 Hm1 Hknown). reflexivity. }
  split; [intros known s Hknown; apply (handle_job_response_appends id known r1 s Hknown)|].
  split; [intros known; split; reflexivity|].
  rewrite create_job_eq. fold id. simpl fst. simpl snd.
  set (pending := pending_job id now job_type targets parameters) in *.
  set (w1 := World _ _).
  assert (Hj1 : App.jobs (self w1) !! id = Some pending) by apply lookup_insert_eq.
  rewrite !deliver_cons. simpl App.deliver.
  pose proof (response_appended id pending m1 r1 w1 Hm1 Hj1) as Hw2.
  set (w2 := snd (App.on_mqtt_message m1 w1)) in *.
  assert (Hj2 : App.jobs (self w2) !! id = Some (append_response pending r1))
    by (rewrite Hw2; apply lookup_insert_eq).
  rewrite (response_appended id _ m2 r2 w2 Hm2 Hj2), Hw2.
  unfold App.get_jobs. simpl App.jobs.
  assert (Hfinal : <[id := append_response (append_response pending r1) r2]>
                     (<[id := append_response pending r1]> (<[id := pending]> (App.jobs (self w))))
                   = <[id := job]> (App.jobs (self w))).
  { rewrite !insert_insert_eq. reflexivity. }
  rewrite Hfinal.
  split; [reflexivity|]. split; [reflexivity|]. split; [apply lookup_insert_eq|].
  split; [reflexivity|]. split; [reflexivity|].
  intros ->. rewrite insert_empty. apply map_to_list_singleton.
Qed.

(** C6, as the code has it. [create_job] does not look at its targets: a
    request whose [target_vehicles] is the empty list (or is missing)
    does not fail. The pending record with the empty target list is stored
    under the new identifier, one assignment is published on the job's
    topic, and the route answers with the identifier and [created]. *)
Theorem empty_targets_still_create_a_job (u : Z) (now : string)
    (items : list (string * value)) (w : world App.Car2XDashboard) :
  dict_get items "target_vehicles" (VList []) = VList [] ->
  let id := job_id_of u in
  let job := pending_job id now (dict_get items "type" VNone) (VList [])
               (dict_get items "parameters" (VDict [])) in
  let after := App.route_create_job u now (VDict items) w in
  fst after = Ok (VDict [("job_id", VStr id); ("status", VStr "created")]) /\
  App.jobs (self (snd after)) = <[id := job]> (App.jobs (self w)) /\
  App.jobs (self (snd after)) !! id = Some job /\
  target_vehicles job = VList [] /\
  trace (snd after) =
    trace w ++ [MqttPublish (format_topic JobAssignment id) (json_dumps (job_value job))].
Proof.
  intros Hempty id job after. subst after.
  unfold App.route_create_job, bind. rewrite create_job_eq, Hempty. simpl.
  split; [reflexivity|]. split; [reflexivity|]. split; [apply lookup_insert_eq|].
  split; reflexivity.
Qed.

(** The topic [publish_cam_message] publishes on is the status topic of
    the vehicle. *)
Lemma publish_cam_message_topic (vehicle : Simulator.Vehicle)
    (s : world Simulator.V2XSimulator) :
  exists payload,
    Simulator.publish_cam_message vehicle s =
    (Ok tt, World (self s)
              (trace s ++ [MqttPublish (format_topic VehicleStatus
                                          (Simulator.vehicle_id vehicle)) payload])).
Proof. eexists. reflexivity. Qed.

Lemma publish_each_returns (targets : list string) (topic payload : string)
    (s : world Simulator.V2XSimulator) :
  fst (Simulator.publish_each targets topic payload s) = Ok tt /\
  self (snd (Simulator.publish_each targets topic payload s)) = self s.
Proof.
  revert s. induction targets as [|t ts IH]; intros s; [split; reflexivity|].
  simpl. unfold bind, tell. simpl.
  apply (IH (World (self s) (trace s ++ [MqttPublish topic payload]))).
Qed.

(** C7, as the code has it. The identifier of a new job is the first eight
    characters of the UUID's text: the eight hex digits of the UUID's top
    32 bits, so two UUIDs that agree there give the same identifier. It is
    not compared with the registry's keys: the new record is stored under
    it, replacing the record of an older job with that identifier. The
    simulator's [create_job] derives the identifier in the same way. *)
Theorem job_id_has_32_bits_and_is_unchecked (u : Z) (now : string)
    (job_type targets parameters : value) (w : world App.Car2XDashboard) :
  let id := hex_fixed 8 ((u / 2 ^ 96) mod 2 ^ 32) in
  let after := App.create_job u now job_type targets parameters w in
  fst after = Ok id /\
  String.length id = 8%nat /\
  App.jobs (self (snd after)) =
    <[id := pending_job id now job_type targets parameters]> (App.jobs (self w)) /\
  (forall old, App.jobs (self w) !! id = Some old ->
     App.jobs (self (snd after)) !! id =
       Some (pending_job id now job_type targets parameters)) /\
  (forall v, (v / 2 ^ 96) mod 2 ^ 32 = (u / 2 ^ 96) mod 2 ^ 32 ->
     fst (App.create_job v now job_type targets parameters w) = Ok id) /\
  (forall simulator_type simulator_targets s,
     fst (Simulator.create_job u now simulator_type simulator_targets parameters s) = Ok id).
Proof.
  intros id after. subst after.
  assert (Hid : forall v, (v / 2 ^ 96) mod 2 ^ 32 = (u / 2 ^ 96) mod 2 ^ 32 ->
                          job_id_of v = id).
  { intros v Hv. rewrite job_id_of_hex, Hv. reflexivity. }
  rewrite create_job_eq, (Hid u eq_refl).
  cbv beta iota zeta delta [fst snd self App.set_job App.jobs].
  split; [reflexivity|]. split; [apply length_hex_fixed|]. split; [reflexivity|].
  split; [intros old _; apply lookup_insert_eq|]. split.
  - intros v Hv. rewrite create_job_eq, (Hid v Hv). reflexivity.
  - intros simulator_type simulator_targets s.
    unfold Simulator.create_job. fold (job_id_of u). rewrite (Hid u eq_refl).
    cbv beta iota zeta delta [bind modify tell ret].
    match goal with
    | |- context [Simulator.publish_each ?t ?a ?b ?s] =>
        pose proof (publish_each_returns t a b s) as [Hret _];
        destruct (Simulator.publish_each t a b s) as [[[]|e] s']
    end; simpl in *; [reflexivity|discriminate].
Qed.
End JobRegistry.

(** ** The topic codec *)

Lemma split_three (a b c : string) :
  contains "/" a = false -> contains "/" b = false -> contains "/" c = false ->
  split "/" (a +:+ String "/" (b +:+ String "/" c)) = [a; b; c].
Proof.
  intros Ha Hb Hc. rewrite (split_app _ a _ Ha), (split_app _ b _ Hb), (split_no_sep _ c Hc).
  reflexivity.
Qed.

Lemma split_four (a b c d : string) :
  contains "/" a = false -> contains "/" b = false -> contains "/" c = false ->
  contains "/" d = false ->
  split "/" (a +:+ String "/" (b +:+ String "/" (c +:+ String "/" d))) = [a; b; c; d].
Proof.
  intros Ha Hb Hc Hd. rewrite (split_app _ a _ Ha), (split_app _ b _ Hb),
    (split_app _ c _ Hc), (split_no_sep _ d Hd).
  reflexivity.
Qed.

(** C8, as the code has it. For an identifier without [/], the topic
    formatted for a kind is parsed back to the kind and the identifier by
    the handler that subscribes to the kind: the dashboard's for vehicle
    status, vehicle emergency, infrastructure update and job response, the
    simulator's for job assignment (and for vehicle status, vehicle
    emergency and job response). The broadcast topic carries no
    identifier and is parsed back to its kind. *)
Theorem topic_round_trip (id : string) :
  contains "/" id = false ->
  App.parse (format_topic VehicleStatus id) = Ok (Some (VehicleStatus, Some id)) /\
  App.parse (format_topic VehicleEmergency id) = Ok (Some (VehicleEmergency, Some id)) /\
  App.parse (format_topic InfrastructureUpdate id) = Ok (Some (InfrastructureUpdate, Some id)) /\
  App.parse (format_topic EmergencyBroadcast id) = Ok (Some (EmergencyBroadcast, None)) /\
  App.parse (format_topic JobResponse id) = Ok (Some (JobResponse, Some id)) /\
  Simulator.parse (format_topic JobAssignment id) = Ok (Some (JobAssignment, Some id)) /\
  Simulator.parse (format_topic VehicleStatus id) = Ok (Some (VehicleStatus, Some id)) /\
  Simulator.parse (format_topic VehicleEmergency id) = Ok (Some (VehicleEmergency, Some id)) /\
  Simulator.parse (format_topic JobResponse id) = Ok (Some (JobResponse, Some id)).
Proof.
  intros Hid. unfold App.parse, Simulator.parse, format_topic.
  assert (Hfour : forall category subkind,
             contains "/" category = false -> contains "/" subkind = false ->
             split "/" ("v2x" +:+ String "/" (category +:+ String "/" (id +:+ String "/" subkind)))
             = ["v2x"; category; id; subkind]).
  { intros category subkind Hc Hs. apply split_four; auto. }
  assert (Hthree : split "/" ("v2x" +:+ String "/" ("infrastructure" +:+ String "/" id))
                   = ["v2x"; "infrastructure"; id]).
  { apply split_three; auto. }
  change ("v2x/infrastructure/" +:+ id) with
    ("v2x" +:+ String "/" ("infrastructure" +:+ String "/" id)).
  change ("v2x/vehicles/" +:+ id +:+ "/status") with
    ("v2x" +:+ String "/" ("vehicles" +:+ String "/" (id +:+ String "/" "status"))).
  change ("v2x/vehicles/" +:+ id +:+ "/emergency") with
    ("v2x" +:+ String "/" ("vehicles" +:+ String "/" (id +:+ String "/" "emergency"))).
  change ("v2x/jobs/" +:+ id +:+ "/response") with
    ("v2x" +:+ String "/" ("jobs" +:+ String "/" (id +:+ String "/" "response"))).
  change ("v2x/jobs/" +:+ id +:+ "/assign") with
    ("v2x" +:+ String "/" ("jobs" +:+ String "/" (id +:+ String "/" "assign"))).
  rewrite Hthree, !Hfour by reflexivity.
  repeat split; reflexivity.
Qed.

(** * The properties on concrete messages *)

(** C1 at work: two snapshots for [V001] with traffic for [V002] around
    them. *)
Lemma last_write_wins_witness :
  App.get_vehicles
    (self (App.deliver (H := Demo.lib)
             (Demo.message "v2x/vehicles/V001/status" "1"
                :: [Demo.message "v2x/vehicles/V002/status" "5"]
                ++ Demo.message "v2x/vehicles/V001/status" "2"
                :: [Demo.message "v2x/vehicles/V002/status" "6"])
             Demo.start)) !! "V001" = Some (VInt 2).
Proof.
  apply (last_write_wins (H := Demo.lib) "V001" (VInt 1) (VInt 2)).
  - repeat split; reflexivity.
  - reflexivity.
  - repeat split; reflexivity.
  - reflexivity.
  - repeat constructor; exists "V002"; (split; [discriminate|repeat split; reflexivity]).
Defined.

(** C3 at work: a response for a job nobody created. *)
Lemma unknown_job_response_ignored_witness :
  let after := App.on_mqtt_message (H := Demo.lib)
                 (Demo.message "v2x/jobs/nonexistent-job/response" "1")
                 Demo.with_diagnostic_job in
  fst after = Ok tt /\
  self (snd after) = self Demo.with_diagnostic_job /\
  App.get_jobs (self (snd after)) = App.get_jobs (self Demo.with_diagnostic_job) /\
  forall event data,
    ~ In (SocketEmit event data)
        (skipn (length (trace Demo.with_diagnostic_job)) (trace (snd after))).
Proof.
  apply (unknown_job_response_ignored (H := Demo.lib) _ _ "nonexistent-job");
    vm_compute; reflexivity.
Defined.

(** C9 at work: traffic light [TL001]. *)
Lemma infrastructure_keyed_by_topic_witness :
  let after := self (snd (App.on_mqtt_message (H := Demo.lib)
                            (Demo.message "v2x/infrastructure/TL001" "30") Demo.start)) in
  App.infrastructure after !! "TL001" = Some (VInt 30) /\
  App.infrastructure after = <["TL001" := VInt 30]> (App.infrastructure (self Demo.start)) /\
  forall payload_id : string,
    payload_id <> "TL001" ->
    App.infrastructure after !! payload_id = App.infrastructure (self Demo.start) !! payload_id.
Proof.
  apply (infrastructure_keyed_by_topic (H := Demo.lib)); reflexivity.
Defined.

(** C10 at work. *)
Lemma vehicle_emergency_changes_no_store_witness :
  let msg := Demo.message "v2x/vehicles/V001/emergency" "1" in
  let after := snd (App.on_mqtt_message (H := Demo.lib) msg Demo.with_diagnostic_job) in
  self after = self Demo.with_diagnostic_job /\
  App.get_emergencies (self after) = App.get_emergencies (self Demo.with_diagnostic_job) /\
  forall message, loads_payload (H := Demo.lib) (payload msg) = Ok message ->
    exists vehicle_id,
      levels msg !! 2%nat = Some vehicle_id /\
      trace after = trace Demo.with_diagnostic_job ++
        [SocketEmit "vehicle_emergency"
           (VDict [("vehicle_id", VStr vehicle_id); ("message", message)])].
Proof.
  apply (vehicle_emergency_changes_no_store (H := Demo.lib)); reflexivity.
Defined.

(** C5 at work: the topic [v2x/vehicles/status] lacks a level. *)
Lemma undecodable_or_unrouted_is_dropped_witness :
  let after := App.on_mqtt_message (H := Demo.lib)
                 (Demo.message "v2x/vehicles/status" "7") Demo.with_diagnostic_job in
  fst after = Ok tt /\
  self (snd after) = self Demo.with_diagnostic_job /\
  (trace (snd after) = trace Demo.with_diagnostic_job \/
   exists e, trace (snd after) =
             trace Demo.with_diagnostic_job ++ [PrintError error_context e]).
Proof.
  apply (undecodable_or_unrouted_is_dropped (H := Demo.lib)). right. reflexivity.
Defined.

(** C5 as stated fails: the topic [v2x/emergency] lacks its last level and
    matches no subscription, yet its payload reaches the emergency
    history. *)
Lemma malformed_topic_reaches_history :
  subscribed "v2x/emergency" = false /\
  App.emergencies (self Demo.start) = [] /\
  App.emergencies
    (self (snd (App.on_mqtt_message (H := Demo.lib)
                  (Demo.message "v2x/emergency" "7") Demo.start))) = [VInt 7].
Proof. repeat split; reflexivity. Qed.

(** C4 at work: two broadcasts. *)
Lemma emergency_history_is_append_only_witness :
  let after := self (App.deliver (H := Demo.lib) (Demo.broadcasts 2) Demo.start) in
  App.emergencies after = App.emergencies (self Demo.start) ++ [VInt 7; VInt 7] /\
  length (App.emergencies after) =
    (length (App.emergencies (self Demo.start)) + length (Demo.broadcasts 2))%nat /\
  length (App.get_emergencies after) = Nat.min 10 (length (App.emergencies after)) /\
  (exists older, App.emergencies after = older ++ App.get_emergencies after) /\
  ((10 <= length [VInt 7; VInt 7])%nat ->
   App.get_emergencies after = drop (length [VInt 7; VInt 7] - 10) [VInt 7; VInt 7]).
Proof.
  apply (emergency_history_is_append_only (H := Demo.lib)).
  repeat constructor.
Defined.

(** C4 as stated fails: no capacity bounds the history. *)
Lemma emergency_history_has_no_capacity :
  ~ exists capacity : nat,
      forall msgs,
        (length (App.emergencies (self (App.deliver (H := Demo.lib) msgs Demo.start)))
         <= capacity)%nat.
Proof.
  intros [capacity Hbound].
  specialize (Hbound (Demo.broadcasts (S capacity))).
  rewrite (broadcasts_append (H := Demo.lib) _ (repeat (VInt 7) (S capacity))) in Hbound.
  - rewrite length_app, repeat_length in Hbound. simpl in Hbound. lia.
  - unfold Demo.broadcasts. generalize (S capacity) as n.
    induction n as [|n IH]; simpl; constructor; [split; reflexivity|exact IH].
Qed.

(** C2 at work: a diagnostic job for [V001] and [V002] and a response
    from each. *)
Lemma responses_append_and_status_stays_witness :
  let id := job_id_of Demo.uuid1 in
  let created := App.create_job (H := Demo.lib) Demo.uuid1 Demo.noon (VStr "diagnostic")
                   (VList [VStr "V001"; VStr "V002"]) VNone Demo.start in
  let final := self (App.deliver (H := Demo.lib)
                       [Demo.message "v2x/jobs/deadbeef/response" "1";
                        Demo.message "v2x/jobs/deadbeef/response" "2"] (snd created)) in
  let job := with_responses
               (pending_job id Demo.noon (VStr "diagnostic")
                  (VList [VStr "V001"; VStr "V002"]) VNone) [VInt 1; VInt 2] in
  (forall known w0,
     App.jobs (self w0) !! id = Some known ->
     App.jobs (self (snd (App.on_mqtt_message (H := Demo.lib)
                            (Demo.message "v2x/jobs/deadbeef/response" "1") w0))) =
       <[id := append_response known (VInt 1)]> (App.jobs (self w0))) /\
  (forall known s,
     Simulator.jobs (self s) !! id = Some known ->
     Simulator.jobs (self (snd (Simulator.handle_job_response id (VInt 1) s))) =
       <[id := append_response known (VInt 1)]> (Simulator.jobs (self s))) /\
  (forall known,
     status (append_response known (VInt 1)) = status known /\
     responses (append_response known (VInt 1))
       = Some (default [] (responses known) ++ [VInt 1])) /\
  fst created = Ok id /\
  App.get_jobs final = <[id := job]> (App.jobs (self Demo.start)) /\
  App.get_jobs final !! id = Some job /\
  status job = "pending" /\ responses job = Some [VInt 1; VInt 2] /\
  (App.jobs (self Demo.start) = ∅ -> map_to_list (App.get_jobs final) = [(id, job)]).
Proof.
  apply (responses_append_and_status_stays (H := Demo.lib));
    repeat split; reflexivity.
Defined.

(** C2 as stated fails: after the job was created and both targets
    responded, the job is still [pending], not [active]. *)
Lemma job_with_responses_stays_pending :
  let final := self (App.deliver (H := Demo.lib)
                       [Demo.message "v2x/jobs/deadbeef/response" "1";
                        Demo.message "v2x/jobs/deadbeef/response" "2"]
                       Demo.with_diagnostic_job) in
  option_map status (App.get_jobs final !! "deadbeef") = Some "pending" /\
  option_map status (App.get_jobs final !! "deadbeef") <> Some "active" /\
  option_map responses (App.get_jobs final !! "deadbeef") = Some (Some [VInt 1; VInt 2]) /\
  size (App.get_jobs final) = 1%nat.
Proof. repeat split; try reflexivity. vm_compute. discriminate. Qed.

(** C6 at work: a request without targets. *)
Lemma empty_targets_still_create_a_job_witness :
  let items := [("type", VStr "diagnostic"); ("target_vehicles", VList [])] in
  let id := job_id_of Demo.uuid1 in
  let job := pending_job id Demo.noon (dict_get items "type" VNone) (VList [])
               (dict_get items "parameters" (VDict [])) in
  let after := App.route_create_job (H := Demo.lib) Demo.uuid1 Demo.noon (VDict items)
                 Demo.start in
  fst after = Ok (VDict [("job_id", VStr id); ("status", VStr "created")]) /\
  App.jobs (self (snd after)) = <[id := job]> (App.jobs (self Demo.start)) /\
  App.jobs (self (snd after)) !! id = Some job /\
  target_vehicles job = VList [] /\
  trace (snd after) =
    trace Demo.start ++
      [MqttPublish (format_topic JobAssignment id)
         (json_dumps (PyLib := Demo.lib) (job_value job))].
Proof.
  apply (empty_targets_still_create_a_job (H := Demo.lib)). reflexivity.
Defined.

(** C6 as stated fails: the request with an empty target list is answered
    with [created], the registry has a new record and an assignment was
    published. *)
Lemma empty_targets_are_accepted :
  let after := App.route_create_job (H := Demo.lib) Demo.uuid1 Demo.noon
                 (VDict [("type", VStr "diagnostic"); ("target_vehicles", VList [])])
                 Demo.start in
  fst after = Ok (VDict [("job_id", VStr "deadbeef"); ("status", VStr "created")]) /\
  size (App.jobs (self Demo.start)) = 0%nat /\
  size (App.jobs (self (snd after))) = 1%nat /\
  option_map target_vehicles (App.jobs (self (snd after)) !! "deadbeef") = Some (VList []) /\
  exists payload, trace (snd after) = [MqttPublish "v2x/jobs/deadbeef/assign" payload].
Proof. repeat split; try reflexivity. eexists. vm_compute. reflexivity. Qed.

(** C7 as stated fails: two UUIDs that differ give the same identifier,
    and the second job takes the place of the first in the registry. *)
Lemma job_ids_collide :
  let second := App.create_job (H := Demo.lib) Demo.uuid2 Demo.noon (VStr "navigation")
                  (VList [VStr "V003"]) VNone Demo.with_diagnostic_job in
  Demo.uuid1 <> Demo.uuid2 /\
  option_map type (App.jobs (self Demo.with_diagnostic_job) !! "deadbeef")
    = Some (VStr "diagnostic") /\
  fst second = Ok "deadbeef" /\
  option_map type (App.jobs (self (snd second)) !! "deadbeef") = Some (VStr "navigation") /\
  size (App.jobs (self (snd second))) = 1%nat.
Proof. repeat split; try reflexivity. discriminate. Qed.

(** C8 at work: the topics of [V001]. *)
Lemma topic_round_trip_witness :
  App.parse (format_topic VehicleStatus "V001") = Ok (Some (VehicleStatus, Some "V001")) /\
  App.parse (format_topic VehicleEmergency "V001") = Ok (Some (VehicleEmergency, Some "V001")) /\
  App.parse (format_topic InfrastructureUpdate "V001")
    = Ok (Some (InfrastructureUpdate, Some "V001")) /\
  App.parse (format_topic EmergencyBroadcast "V001") = Ok (Some (EmergencyBroadcast, None)) /\
  App.parse (format_topic JobResponse "V001") = Ok (Some (JobResponse, Some "V001")) /\
  Simulator.parse (format_topic JobAssignment "V001") = Ok (Some (JobAssignment, Some "V001")) /\
  Simulator.parse (format_topic VehicleStatus "V001") = Ok (Some (VehicleStatus, Some "V001")) /\
  Simulator.parse (format_topic VehicleEmergency "V001")
    = Ok (Some (VehicleEmergency, Some "V001")) /\
  Simulator.parse (format_topic JobResponse "V001") = Ok (Some (JobResponse, Some "V001")).
Proof. apply (topic_round_trip "V001"). reflexivity. Defined.

(** C8 as stated fails: an identifier with a [/] is not recovered, and the
    dashboard takes the topic of a job assignment for a job response. *)
Lemma topic_round_trip_fails :
  App.parse (format_topic VehicleStatus "a/b") = Ok None /\
  App.parse (format_topic InfrastructureUpdate "a/b")
    = Ok (Some (InfrastructureUpdate, Some "a")) /\
  App.parse (format_topic JobAssignment "J1") = Ok (Some (JobResponse, Some "J1")).
Proof. repeat split; reflexivity. Qed.

(** * Further properties of the handlers *)

(** ** One message at the dashboard *)

Lemma classify_broadcast_inv (parts : list string) (id : option string) :
  App.classify parts = Ok (Some (EmergencyBroadcast, id)) -> id = None.
Proof.
  unfold App.classify, getitem.
  destruct parts as [|p0 [|p1 [|p2 [|p3 rest]]]]; simpl; try discriminate;
    eqb_cases; try discriminate; intros [= <-]; reflexivity.
Qed.

Section OneMessage.
Context `{PyLib}.

(** X1. [on_mqtt_message] applies a message whole or not at all. It never
    raises, and it ends in one of three ways: nothing happened; an
    exception was printed and the dashboard is as before; or the message
    was applied and exactly one event was emitted to the observers. *)
Theorem on_mqtt_message_is_atomic (msg : MQTTMessage) (w : world App.Car2XDashboard) :
  let after := App.on_mqtt_message msg w in
  fst after = Ok tt /\
  (snd after = w \/
   (exists e, snd after = printed e w) \/
   (exists d event data, snd after = World d (trace w ++ [SocketEmit event data]))).
Proof.
  intros after. subst after. split; [apply on_mqtt_message_returns|].
  rewrite on_mqtt_message_eq.
  destruct (loads_payload (payload msg)) as [message|e]; [|right; left; eauto].
  destruct (App.classify (split "/" (topic msg))) as [[[kind [id|]]|]|e];
    try destruct kind; simpl; eauto 6.
  cbv beta iota zeta delta [bind get]. simpl.
  destruct (App.jobs (self w) !! id); simpl; eauto 6.
Qed.

(** X2. Each store is written by one branch only: after any message, a
    changed vehicle store means the topic was routed as a vehicle status,
    a changed infrastructure store as an infrastructure update, a changed
    emergency history as a broadcast, and a changed job registry as a
    response for a job the registry held. *)
Theorem message_changes_only_its_store (msg : MQTTMessage) (w : world App.Car2XDashboard) :
  let after := self (snd (App.on_mqtt_message msg w)) in
  let route := App.parse (topic msg) in
  (App.vehicles after <> App.vehicles (self w) ->
   exists id, route = Ok (Some (VehicleStatus, Some id))) /\
  (App.infrastructure after <> App.infrastructure (self w) ->
   exists id, route = Ok (Some (InfrastructureUpdate, Some id))) /\
  (App.emergencies after <> App.emergencies (self w) ->
   route = Ok (Some (EmergencyBroadcast, None))) /\
  (App.jobs after <> App.jobs (self w) ->
   exists id, route = Ok (Some (JobResponse, Some id)) /\ is_Some (App.jobs (self w) !! id)).
Proof.
  intros after route. subst after route. unfold App.parse.
  rewrite on_mqtt_message_eq.
  destruct (loads_payload (payload msg)) as [message|e];
    [|simpl; repeat split; intros Hne; exfalso; apply Hne; reflexivity].
  destruct (App.classify (split "/" (topic msg))) as [[[kind [id|]]|]|e] eqn:Hroute;
    try destruct kind; simpl;
    try (repeat split; intros Hne;
         solve [exfalso; apply Hne; reflexivity | eauto]).
  - apply classify_broadcast_inv in Hroute. discriminate.
  - cbv beta iota zeta delta [bind get]. simpl.
    destruct (App.jobs (self w) !! id) as [j|] eqn:Hj; simpl;
      repeat split; intros Hne;
      solve [exfalso; apply Hne; reflexivity | exists id; eauto].
Qed.
End OneMessage.

(** X3. The only exception a topic can cause is [IndexError], and it is
    raised exactly when the topic has fewer than two levels, or its second
    level is [vehicles] and it has fewer than four, or its second level is
    [infrastructure] or [jobs] and it has fewer than three. *)
Theorem parse_raises_iff (topic : string) :
  let parts := split "/" topic in
  (forall e, App.parse topic = Raise e -> e = IndexError) /\
  (App.parse topic = Raise IndexError <->
   (length parts < 2)%nat \/
   (parts !! 1%nat = Some "vehicles" /\ (length parts < 4)%nat) \/
   ((parts !! 1%nat = Some "infrastructure" \/ parts !! 1%nat = Some "jobs") /\
    (length parts < 3)%nat)).
Proof.
  intros parts. subst parts. unfold App.parse, App.classify, getitem.
  destruct (split "/" topic) as [|p0 [|p1 [|p2 [|p3 rest]]]]; simpl.
  1-2: split; [intros e [= <-]; reflexivity|split; [intros _; left; lia|reflexivity]].
  all: eqb_cases;
    repeat match goal with
      | E : String.eqb _ _ = false |- _ => apply String.eqb_neq in E
      end;
    (split; [intros e He; congruence|]);
    (split; [intros Hr; first [discriminate Hr | right; left; split; [reflexivity|lia]
                              | right; right; split; [auto|lia]]
            |intros [Hl|[[Hv Hl]|[[Hi|Hj] Hl]]];
               first [reflexivity | lia | congruence]]).
Qed.

(** ** Subscriptions and routes *)

Lemma join_levels_cons (c : ascii) (p : string) (ps : list string) :
  join_levels (String c p :: ps) = String c (join_levels (p :: ps)).
Proof. destruct ps; reflexivity. Qed.

(** Splitting a topic loses nothing: its levels joined give it back. *)
Lemma join_split (s : string) : join_levels (split "/" s) = s.
Proof.
  induction s as [|c s IH]; [reflexivity|]. simpl.
  destruct (Ascii.eqb c "/") eqn:Hc.
  - apply Ascii.eqb_eq in Hc. subst c.
    destruct (split "/" s) as [|p ps] eqn:Hs; [destruct (split_nonempty _ _ Hs)|].
    change (join_levels ("" :: p :: ps)) with (String "/" (join_levels (p :: ps))).
    rewrite IH. reflexivity.
  - destruct (split "/" s) as [|p ps] eqn:Hs; [destruct (split_nonempty _ _ Hs)|].
    rewrite join_levels_cons, IH. reflexivity.
Qed.

(** The levels of a topic that matches a subscription with four levels. *)
Lemma matches_four (a b d topic : string) :
  String.eqb a "+" = false -> String.eqb b "+" = false -> String.eqb d "+" = false ->
  levels_match [a; b; "+"; d] (split "/" topic) = true ->
  exists id, split "/" topic = [a; b; id; d] /\ contains "/" id = false /\
             topic = a +:+ String "/" (b +:+ String "/" (id +:+ String "/" d)).
Proof.
  intros Ha Hb Hd Hm. pose proof (join_split topic) as Hjoin.
  pose proof (split_pieces "/" topic) as Hpieces.
  destruct (split "/" topic) as [|p0 [|p1 [|p2 [|p3 [|p4 rest]]]]];
    cbn [levels_match] in Hm;
    rewrite ?Ha, ?Hb, ?Hd, ?String.eqb_refl in Hm; cbn [orb] in Hm; try discriminate;
    try (rewrite ?andb_false_r in Hm; discriminate).
  rewrite andb_true_r in Hm.
  apply andb_prop in Hm as [H0 Hm]. apply andb_prop in Hm as [H1 H3].
  apply String.eqb_eq in H0, H1, H3. subst p0 p1 p3.
  exists p2. split; [reflexivity|]. split; [apply Hpieces; simpl; auto|].
  symmetry. exact Hjoin.
Qed.

Lemma matches_three (a b topic : string) :
  String.eqb a "+" = false -> String.eqb b "+" = false ->
  levels_match [a; b; "+"] (split "/" topic) = true ->
  exists id, split "/" topic = [a; b; id] /\ contains "/" id = false /\
             topic = a +:+ String "/" (b +:+ String "/" id).
Proof.
  intros Ha Hb Hm. pose proof (join_split topic) as Hjoin.
  pose proof (split_pieces "/" topic) as Hpieces.
  destruct (split "/" topic) as [|p0 [|p1 [|p2 [|p3 rest]]]];
    cbn [levels_match] in Hm;
    rewrite ?Ha, ?Hb, ?String.eqb_refl in Hm; cbn [orb] in Hm; try discriminate;
    try (rewrite ?andb_false_r in Hm; discriminate).
  rewrite andb_true_r in Hm.
  apply andb_prop in Hm as [H0 H1].
  apply String.eqb_eq in H0, H1. subst p0 p1.
  exists p2. split; [reflexivity|]. split; [apply Hpieces; simpl; auto|].
  symmetry. exact Hjoin.
Qed.

Lemma matches_exact (a b c topic : string) :
  String.eqb a "+" = false -> String.eqb b "+" = false -> String.eqb c "+" = false ->
  levels_match [a; b; c] (split "/" topic) = true ->
  topic = a +:+ String "/" (b +:+ String "/" c).
Proof.
  intros Ha Hb Hc Hm. pose proof (join_split topic) as Hjoin.
  destruct (split "/" topic) as [|p0 [|p1 [|p2 [|p3 rest]]]]; cbn [levels_match] in Hm;
    rewrite ?Ha, ?Hb, ?Hc in Hm; cbn [orb] in Hm; try discriminate;
    try (rewrite ?andb_false_r in Hm; discriminate).
  rewrite andb_true_r in Hm.
  apply andb_prop in Hm as [H0 Hm]. apply andb_prop in Hm as [H1 H2].
  apply String.eqb_eq in H0, H1, H2. subst p0 p1 p2.
  symmetry. exact Hjoin.
Qed.

(** X4. Every topic that matches one of the dashboard's subscriptions is
    taken by a branch of [on_mqtt_message]: it is the topic of a kind and
    an identifier without [/], and the handler's route recovers that kind
    and that identifier (none for the broadcast). No delivered message is
    dropped for its topic. *)
Theorem subscribed_topics_are_routed (topic : string) :
  subscribed topic = true ->
  exists kind id,
    App.parse topic = Ok (Some (kind, id)) /\
    topic = format_topic kind (default "" id) /\
    kind <> JobAssignment /\
    (kind = EmergencyBroadcast <-> id = None) /\
    forall i, id = Some i -> contains "/" i = false.
Proof.
  unfold subscribed, App.subscriptions, topic_matches. simpl existsb.
  rewrite orb_false_r. intros Hsub.
  repeat (apply orb_prop in Hsub as [Hm|Hsub]); [| | | |rename Hsub into Hm].
  - apply (matches_four "v2x" "vehicles" "status") in Hm as (id & Hs & Hid & ->);
      try reflexivity.
    exists VehicleStatus, (Some id). unfold App.parse. rewrite Hs.
    repeat split; try reflexivity; try discriminate. intros i [= <-]. exact Hid.
  - apply (matches_four "v2x" "vehicles" "emergency") in Hm as (id & Hs & Hid & ->);
      try reflexivity.
    exists VehicleEmergency, (Some id). unfold App.parse. rewrite Hs.
    repeat split; try reflexivity; try discriminate. intros i [= <-]. exact Hid.
  - apply (matches_three "v2x" "infrastructure") in Hm as (id & Hs & Hid & ->);
      try reflexivity.
    exists InfrastructureUpdate, (Some id). unfold App.parse. rewrite Hs.
    repeat split; try reflexivity; try discriminate. intros i [= <-]. exact Hid.
  - apply (matches_exact "v2x" "emergency" "broadcast") in Hm; try reflexivity.
    subst topic.
    exists EmergencyBroadcast, None.
    repeat split; try reflexivity; try discriminate.
  - apply (matches_four "v2x" "jobs" "response") in Hm as (id & Hs & Hid & ->);
      try reflexivity.
    exists JobResponse, (Some id). unfold App.parse. rewrite Hs.
    repeat split; try reflexivity; try discriminate. intros i [= <-]. exact Hid.
Qed.

(** X5. Every topic that matches one of the simulator's subscriptions is
    taken by a branch of [on_message], with the kind and the identifier
    of the topic. *)
Theorem simulator_subscribed_topics_are_routed (topic : string) :
  simulator_subscribed topic = true ->
  exists kind id,
    Simulator.parse topic = Ok (Some (kind, Some id)) /\
    topic = format_topic kind id /\
    contains "/" id = false /\
    kind <> InfrastructureUpdate /\ kind <> EmergencyBroadcast.
Proof.
  unfold simulator_subscribed, Simulator.subscriptions, topic_matches. simpl existsb.
  rewrite orb_false_r. intros Hsub.
  repeat (apply orb_prop in Hsub as [Hm|Hsub]); [| | |rename Hsub into Hm].
  - apply (matches_four "v2x" "vehicles" "status") in Hm as (id & Hs & Hid & ->);
      try reflexivity.
    exists VehicleStatus, id. unfold Simulator.parse. rewrite Hs.
    repeat split; try reflexivity; try discriminate. exact Hid.
  - apply (matches_four "v2x" "vehicles" "emergency") in Hm as (id & Hs & Hid & ->);
      try reflexivity.
    exists VehicleEmergency, id. unfold Simulator.parse. rewrite Hs.
    repeat split; try reflexivity; try discriminate. exact Hid.
  - apply (matches_four "v2x" "jobs" "assign") in Hm as (id & Hs & Hid & ->);
      try reflexivity.
    exists JobAssignment, id. unfold Simulator.parse. rewrite Hs.
    repeat split; try reflexivity; try discriminate. exact Hid.
  - apply (matches_four "v2x" "jobs" "response") in Hm as (id & Hs & Hid & ->);
      try reflexivity.
    exists JobResponse, id. unfold Simulator.parse. rewrite Hs.
    repeat split; try reflexivity; try discriminate. exact Hid.
Qed.

(** ** What message handling keeps *)

Lemma job_extends_refl (j : Job) : job_extends j j.
Proof. repeat split. exists []. rewrite app_nil_r. reflexivity. Qed.

Lemma job_extends_trans (a b c : Job) : job_extends a b -> job_extends b c -> job_extends a c.
Proof.
  intros (H1 & H2 & H3 & H4 & H5 & H6 & m1 & Hm1) (G1 & G2 & G3 & G4 & G5 & G6 & m2 & Hm2).
  repeat split; try congruence.
  exists (m1 ++ m2). rewrite Hm2, Hm1, app_assoc. reflexivity.
Qed.

Lemma job_extends_append (j : Job) (r : value) : job_extends j (append_response j r).
Proof. repeat split. exists [r]. reflexivity. Qed.

Lemma only_grows_refl (d : App.Car2XDashboard) : only_grows d d.
Proof.
  repeat split; auto.
  - exists []. rewrite app_nil_r. reflexivity.
  - intros id j Hj. exists j. split; [exact Hj|apply job_extends_refl].
Qed.

Lemma only_grows_trans (a b c : App.Car2XDashboard) :
  only_grows a b -> only_grows b c -> only_grows a c.
Proof.
  intros (Hv1 & Hi1 & [m1 He1] & Hj1) (Hv2 & Hi2 & [m2 He2] & Hj2).
  repeat split; auto.
  - exists (m1 ++ m2). rewrite He2, He1, app_assoc. reflexivity.
  - intros id j Hj. destruct (Hj1 id j Hj) as (j' & Hj' & Hext).
    destruct (Hj2 id j' Hj') as (j'' & Hj'' & Hext').
    exists j''. split; [exact Hj''|exact (job_extends_trans _ _ _ Hext Hext')].
Qed.

Section Kept.
Context `{PyLib}.

Lemma message_only_grows (msg : MQTTMessage) (w : world App.Car2XDashboard) :
  only_grows (self w) (self (snd (App.on_mqtt_message msg w))).
Proof.
  rewrite on_mqtt_message_eq.
  destruct (loads_payload (payload msg)) as [message|e]; [|apply only_grows_refl].
  destruct (App.classify (split "/" (topic msg))) as [[[kind [id|]]|]|e];
    try destruct kind; try apply only_grows_refl; simpl.
  - (* vehicle status *)
    destruct (only_grows_refl (self w)) as (Hv & Hi & He & Hj).
    repeat split; auto.
    intros id' Hsome. simpl. apply lookup_insert_is_Some'. auto.
  - (* infrastructure *)
    destruct (only_grows_refl (self w)) as (Hv & Hi & He & Hj).
    repeat split; auto.
    intros id' Hsome. simpl. apply lookup_insert_is_Some'. auto.
  - (* broadcast *)
    destruct (only_grows_refl (self w)) as (Hv & Hi & He & Hj).
    repeat split; auto. exists [message]. reflexivity.
  - (* job response *)
    cbv beta iota zeta delta [bind get]. simpl.
    destruct (App.jobs (self w) !! id) as [j|] eqn:Hj; simpl; [|apply only_grows_refl].
    destruct (only_grows_refl (self w)) as (Hv & Hi & He & _).
    repeat split; auto.
    intros id' j' Hj'. simpl. destruct (decide (id' = id)) as [->|Hne].
    + rewrite lookup_insert_eq. exists (append_response j message).
      split; [reflexivity|]. rewrite Hj in Hj'. injection Hj' as <-.
      apply job_extends_append.
    + rewrite lookup_insert_ne by congruence.
      exists j'. split; [exact Hj'|apply job_extends_refl].
  - (* broadcast, whatever the identifier *)
    destruct (only_grows_refl (self w)) as (Hv & Hi & He & Hj).
    repeat split; auto. exists [message]. reflexivity.
Qed.

(** X6. Handling messages deletes nothing. After any messages, every
    vehicle and every infrastructure element the dashboard held is still
    held, the emergency history of before is the beginning of the history
    of after, and every job is still in the registry with the same
    identifier, type, timestamp, targets, parameters and status, its old
    responses being the first of its responses. *)
Theorem messages_delete_nothing (msgs : list MQTTMessage) (w : world App.Car2XDashboard) :
  only_grows (self w) (self (App.deliver msgs w)).
Proof.
  revert w. induction msgs as [|m msgs IH]; intros w; [apply only_grows_refl|].
  rewrite deliver_cons.
  exact (only_grows_trans _ _ _ (message_only_grows m w) (IH _)).
Qed.

(** Responses for a job pile up in its record, one after the other. *)
Lemma responses_pile_up (id : string) (msgs : list MQTTMessage) (rs : list value) :
  Forall2 (is_response_for id) msgs rs ->
  forall (j : Job) (w : world App.Car2XDashboard),
    App.jobs (self w) !! id = Some j ->
    App.jobs (self (App.deliver msgs w)) =
    match rs with
    | [] => App.jobs (self w)
    | _ => <[id := with_responses j (default [] (responses j) ++ rs)]> (App.jobs (self w))
    end.
Proof.
  induction 1 as [|m r ms rs' Hm _ IH]; intros j w Hj; [reflexivity|].
  rewrite deliver_cons.
  pose proof (response_appended id j m r w Hm Hj) as Hstep.
  set (w1 := snd (App.on_mqtt_message m w)) in *.
  assert (Hj1 : App.jobs (self w1) !! id = Some (append_response j r))
    by (rewrite Hstep; apply lookup_insert_eq).
  rewrite (IH _ w1 Hj1), Hstep. simpl App.jobs.
  destruct rs' as [|r' rs'']; [reflexivity|].
  rewrite insert_insert_eq. f_equal. unfold with_responses, append_response. simpl.
  rewrite <- app_assoc. reflexivity.
Qed.

(** Each response for a known job is forwarded to the observers. *)
Lemma responses_are_forwarded (id : string) (msgs : list MQTTMessage) (rs : list value) :
  Forall2 (is_response_for id) msgs rs ->
  forall (j : Job) (w : world App.Car2XDashboard),
    App.jobs (self w) !! id = Some j ->
    trace (App.deliver msgs w) =
    trace w ++ map (fun r => SocketEmit "job_response"
                               (VDict [("job_id", VStr id); ("response", r)])) rs.
Proof.
  induction 1 as [|m r ms rs' Hm _ IH]; intros j w Hj.
  - simpl. rewrite app_nil_r. reflexivity.
  - rewrite deliver_cons.
    pose proof (response_appended id j m r w Hm Hj) as Hstep.
    assert (Htrace : trace (snd (App.on_mqtt_message m w)) =
                     trace w ++ [SocketEmit "job_response"
                                   (VDict [("job_id", VStr id); ("response", r)])]).
    { destruct Hm as (H1 & H2 & Hload). unfold levels in *.
      rewrite on_mqtt_message_eq, Hload, (classify_jobs _ id H1 H2).
      cbv beta iota zeta delta [App.dispatch bind get]. rewrite Hj. reflexivity. }
    set (w1 := snd (App.on_mqtt_message m w)) in *.
    assert (Hj1 : App.jobs (self w1) !! id = Some (append_response j r))
      by (rewrite Hstep; apply lookup_insert_eq).
    rewrite (IH _ w1 Hj1), Htrace, <- app_assoc. reflexivity.
Qed.

(** X7. Responses are never merged or dropped: after any number of
    response messages for a job of the registry (at least one), the job's
    record is the record of before with all their payloads appended to its
    responses in arrival order, repeated payloads included; the other jobs
    are untouched, and one [job_response] event per message went to the
    observers, in the same order. *)
Theorem responses_accumulate (id : string) (msgs : list MQTTMessage) (rs : list value)
    (j : Job) (w : world App.Car2XDashboard) :
  Forall2 (is_response_for id) msgs rs ->
  App.jobs (self w) !! id = Some j ->
  msgs <> [] ->
  let after := App.deliver msgs w in
  App.jobs (self after) !! id = Some (with_responses j (default [] (responses j) ++ rs)) /\
  (forall other, other <> id -> App.jobs (self after) !! other = App.jobs (self w) !! other) /\
  trace after =
    trace w ++ map (fun r => SocketEmit "job_response"
                               (VDict [("job_id", VStr id); ("response", r)])) rs.
Proof.
  intros Hmsgs Hj Hne after. subst after.
  rewrite (responses_pile_up id msgs rs Hmsgs j w Hj).
  split; [|split].
  - destruct rs as [|r rs]; [inversion Hmsgs; subst; contradiction|].
    apply lookup_insert_eq.
  - intros other Ho. destruct rs as [|r rs]; [reflexivity|].
    apply lookup_insert_ne. congruence.
  - exact (responses_are_forwarded id msgs rs Hmsgs j w Hj).
Qed.
End Kept.

(** ** The registry over the life of the dashboard *)

Lemma published_topics_app (t1 t2 : list effect) :
  published_topics (t1 ++ t2) = published_topics t1 ++ published_topics t2.
Proof.
  induction t1 as [|e t1 IH]; [reflexivity|].
  destruct e; simpl; rewrite IH; reflexivity.
Qed.

Lemma size_insert_le {A : Type} (m : gmap string A) (k : string) (v : A) :
  (size (<[k := v]> m) <= S (size m))%nat.
Proof. rewrite map_size_insert. destruct (m !! k); simpl; lia. Qed.

Section Life.
Context `{PyLib}.

(** A message leaves the registry alone or appends a response to one of
    its jobs, and publishes nothing. *)
Lemma message_and_registry (msg : MQTTMessage) (w : world App.Car2XDashboard) :
  let after := snd (App.on_mqtt_message msg w) in
  (App.jobs (self after) = App.jobs (self w) \/
   exists id j r, App.jobs (self w) !! id = Some j /\
                  App.jobs (self after) = <[id := append_response j r]> (App.jobs (self w))) /\
  published_topics (trace after) = published_topics (trace w).
Proof.
  intros after. subst after. rewrite on_mqtt_message_eq.
  assert (Hpub : forall e, published_topics (trace w ++ [e]) =
                           published_topics (trace w) ++ published_topics [e])
    by (intros e; apply published_topics_app).
  destruct (loads_payload (payload msg)) as [message|e];
    [|simpl; rewrite Hpub, app_nil_r; auto].
  destruct (App.classify (split "/" (topic msg))) as [[[kind [id|]]|]|e];
    try destruct kind; simpl; rewrite ?Hpub, ?app_nil_r; auto.
  cbv beta iota zeta delta [bind get]. simpl.
  destruct (App.jobs (self w) !! id) as [j|] eqn:Hj; simpl; rewrite ?Hpub, ?app_nil_r; auto.
  split; [right; exists id, j, message; auto|reflexivity].
Qed.

(** The route in closed form. *)
Lemma route_create_job_eq (u : Z) (now : string) (items : list (string * value))
    (w : world App.Car2XDashboard) :
  let id := job_id_of u in
  let job := pending_job id now (dict_get items "type" VNone)
               (dict_get items "target_vehicles" (VList []))
               (dict_get items "parameters" (VDict [])) in
  App.route_create_job u now (VDict items) w =
  (Ok (VDict [("job_id", VStr id); ("status", VStr "created")]),
   World (App.set_job id job (self w))
     (trace w ++ [MqttPublish (format_topic JobAssignment id) (json_dumps (job_value job))])).
Proof. reflexivity. Qed.

Lemma route_create_job_not_dict (u : Z) (now : string) (data : value)
    (w : world App.Car2XDashboard) :
  (forall items, data <> VDict items) ->
  App.route_create_job u now data w = (Raise AttributeError, w).
Proof. intros Hnot. destruct data; try reflexivity. destruct (Hnot items eq_refl). Qed.

Lemma dict_get_missing (items : list (string * value)) (key : string) (d : value) :
  existsb (fun kv => String.eqb (fst kv) key) items = false -> dict_get items key d = d.
Proof.
  induction items as [|[k v] items IH]; simpl; [reflexivity|].
  intros Hno. apply orb_false_elim in Hno as [Hk Hrest]. rewrite Hk. auto.
Qed.

Lemma py_or_truthy (a b : value) : truthy (py_or a b) = true \/ py_or a b = b.
Proof. unfold py_or. destruct (truthy a) eqn:Ha; auto. Qed.

(** X8. The route [/api/create_job] checks nothing but the shape of the
    body. A body that is a JSON object always creates a job, whatever its
    keys: a missing [type] is stored as [None], missing targets as the
    empty list, and parameters that are missing or falsy as the empty
    dictionary; the answer carries the key under which the record is
    stored and on whose topic the assignment was published. Any other
    body raises [AttributeError] and leaves the dashboard and the trace
    as they were. *)
Theorem route_create_job_checks_only_the_shape (u : Z) (now : string) (data : value)
    (w : world App.Car2XDashboard) :
  let after := App.route_create_job u now data w in
  match data with
  | VDict items =>
      exists job,
        fst after = Ok (VDict [("job_id", VStr (job_id job)); ("status", VStr "created")]) /\
        App.jobs (self (snd after)) = <[job_id job := job]> (App.jobs (self w)) /\
        (exists payload,
           trace (snd after) =
           trace w ++ [MqttPublish (format_topic JobAssignment (job_id job)) payload]) /\
        status job = "pending" /\ responses job = None /\
        (truthy (parameters job) = true \/ parameters job = VDict []) /\
        (existsb (fun kv => String.eqb (fst kv) "type") items = false -> type job = VNone) /\
        (existsb (fun kv => String.eqb (fst kv) "target_vehicles") items = false ->
         target_vehicles job = VList []) /\
        (existsb (fun kv => String.eqb (fst kv) "parameters") items = false ->
         parameters job = VDict [])
  | _ => fst after = Raise AttributeError /\ snd after = w
  end.
Proof.
  intros after. subst after. destruct data; try (split; reflexivity).
  rewrite route_create_job_eq.
  exists (pending_job (job_id_of u) now (dict_get items "type" VNone)
            (dict_get items "target_vehicles" (VList []))
            (dict_get items "parameters" (VDict []))).
  simpl.
  split; [reflexivity|]. split; [reflexivity|]. split; [eexists; reflexivity|].
  split; [reflexivity|]. split; [reflexivity|]. split; [apply py_or_truthy|].
  split; [|split].
  - apply dict_get_missing.
  - apply dict_get_missing.
  - intros Hno. rewrite (dict_get_missing _ _ _ Hno). reflexivity.
Qed.

Lemma registry_ok_insert (d : App.Car2XDashboard) (id : string) (j : Job) :
  registry_ok d ->
  job_id j = id -> String.length id = 8%nat -> status j = "pending" ->
  responses j <> Some [] ->
  registry_ok (App.set_job id j d).
Proof.
  intros Hok H1 H2 H3 H4 id' j' Hj'. simpl in Hj'.
  destruct (decide (id = id')) as [<-|Hne].
  - rewrite lookup_insert_eq in Hj'. injection Hj' as <-. auto.
  - rewrite lookup_insert_ne in Hj' by exact Hne. exact (Hok id' j' Hj').
Qed.

Lemma serve_keeps_registry_ok (r : request) (w : world App.Car2XDashboard) :
  registry_ok (self w) -> registry_ok (self (serve r w)).
Proof.
  intros Hok. destruct r as [msg|u now data]; simpl.
  - destruct (message_and_registry msg w) as [[Hsame|(id & j & r & Hj & Hins)] _].
    + intros id j Hj. apply Hok. rewrite <- Hsame. exact Hj.
    + destruct (Hok id j Hj) as (H1 & H2 & H3 & H4).
      intros id' j' Hj'. rewrite Hins in Hj'.
      destruct (decide (id = id')) as [<-|Hne].
      * rewrite lookup_insert_eq in Hj'. injection Hj' as <-.
        repeat split; auto. simpl. intros [= Hnil].
        destruct (default [] (responses j)); discriminate.
      * rewrite lookup_insert_ne in Hj' by exact Hne. exact (Hok id' j' Hj').
  - destruct data; try exact Hok.
    rewrite route_create_job_eq. simpl self.
    apply registry_ok_insert;
      [exact Hok|reflexivity|apply length_job_id|reflexivity|discriminate].
Qed.

(** X9. In every state the dashboard reaches from its start by messages
    and job requests, every record of the registry is stored under its own
    [job_id], an identifier of eight characters, has the status
    [pending], and has either no responses or at least one. *)
Theorem registry_invariant (requests : list request) :
  registry_ok (self (serve_all requests fresh)).
Proof.
  assert (Hgen : forall w, registry_ok (self w) -> registry_ok (self (serve_all requests w))).
  { induction requests as [|r rs IH]; intros w Hok; [exact Hok|].
    simpl. apply IH. apply serve_keeps_registry_ok. exact Hok. }
  apply Hgen. intros id j Hj. simpl in Hj. rewrite lookup_empty in Hj. discriminate.
Qed.

(** What holds of the published topics of a reachable dashboard. *)
Lemma serve_keeps_assignments (r : request) (w : world App.Car2XDashboard) :
  let ok w := Forall (fun t => exists id, t = format_topic JobAssignment id /\
                                          is_Some (App.jobs (self w) !! id))
                (published_topics (trace w)) /\
              (size (App.jobs (self w)) <= length (published_topics (trace w)))%nat in
  ok w -> ok (serve r w).
Proof.
  intros ok [Hall Hsize]. subst ok. destruct r as [msg|u now data]; simpl.
  - destruct (message_and_registry msg w) as [Hjobs Hpub]. simpl in Hjobs, Hpub.
    rewrite Hpub. destruct Hjobs as [Hsame|(id & j & r & Hj & Hins)].
    + rewrite Hsame. auto.
    + rewrite Hins. split.
      * eapply Forall_impl; [exact Hall|]. intros t (id' & -> & Hsome).
        exists id'. split; [reflexivity|]. apply lookup_insert_is_Some'. auto.
      * rewrite map_size_insert_Some by eauto. exact Hsize.
  - destruct data; try (split; assumption).
    rewrite route_create_job_eq. simpl self. simpl trace.
    rewrite published_topics_app. simpl. split.
    + apply Forall_app. split.
      * eapply Forall_impl; [exact Hall|]. intros t (id' & -> & Hsome).
        exists id'. split; [reflexivity|]. apply lookup_insert_is_Some'. auto.
      * constructor; [|constructor]. eexists. split; [reflexivity|].
        rewrite lookup_insert_eq. eauto.
    + rewrite length_app. simpl length.
      etransitivity; [apply size_insert_le|]. lia.
Qed.

(** X10. The dashboard publishes assignments only, each for a job its
    registry holds: in every reachable state every topic it has published
    is the assignment topic of an identifier that is a key of the
    registry, and the registry has at most as many jobs as assignments
    were published. *)
Theorem published_assignments_are_registered (requests : list request) :
  let w := serve_all requests fresh in
  Forall (fun t => exists id, t = format_topic JobAssignment id /\
                              is_Some (App.jobs (self w) !! id))
    (published_topics (trace w)) /\
  (size (App.jobs (self w)) <= length (published_topics (trace w)))%nat.
Proof.
  assert (Hgen : forall w0,
             (Forall (fun t => exists id, t = format_topic JobAssignment id /\
                                          is_Some (App.jobs (self w0) !! id))
                (published_topics (trace w0)) /\
              (size (App.jobs (self w0)) <= length (published_topics (trace w0)))%nat) ->
             let w := serve_all requests w0 in
             Forall (fun t => exists id, t = format_topic JobAssignment id /\
                                         is_Some (App.jobs (self w) !! id))
               (published_topics (trace w)) /\
             (size (App.jobs (self w)) <= length (published_topics (trace w)))%nat).
  { induction requests as [|r rs IH]; intros w0 Hok; [exact Hok|].
    simpl. apply IH. apply (serve_keeps_assignments r w0). exact Hok. }
  apply Hgen. simpl. split; [constructor|]. rewrite map_size_empty. lia.
Qed.
End Life.

(** ** Reading a job identifier back *)

Lemma hex_digit_value_digit (z : Z) : hex_digit_value (hex_digit z) = Some (z mod 16).
Proof.
  unfold hex_digit.
  assert (Hz : 0 <= z mod 16 < 16) by (apply Z.mod_pos_bound; lia).
  replace (Some (z mod 16)) with (Some (Z.of_nat (Z.to_nat (z mod 16))))
    by (rewrite Z2Nat.id by lia; reflexivity).
  remember (Z.to_nat (z mod 16)) as n eqn:Hn.
  assert (Hlt : (n < 16)%nat) by lia. clear Hn Hz.
  do 16 (destruct n as [|n]; [reflexivity|]). lia.
Qed.

Lemma hex_value_app (acc : Z) (a b : string) :
  hex_value acc (a +:+ b) =
  match hex_value acc a with
  | Some x => hex_value x b
  | None => None
  end.
Proof.
  revert acc. induction a as [|c a IH]; intros acc; [reflexivity|].
  rewrite append_cons. simpl. destruct (hex_digit_value c); [apply IH|reflexivity].
Qed.

(** Reading a formatted number back gives the number, modulo the width. *)
Lemma hex_value_fixed (w : nat) (acc z : Z) :
  hex_value acc (hex_fixed w z) = Some (acc * 16 ^ Z.of_nat w + z mod 16 ^ Z.of_nat w).
Proof.
  revert acc z. induction w as [|w IH]; intros acc z.
  - simpl. rewrite Z.mod_1_r. f_equal. lia.
  - simpl hex_fixed. rewrite hex_value_app, IH. simpl hex_value.
    rewrite hex_digit_value_digit. f_equal.
    rewrite Nat2Z.inj_succ, Z.pow_succ_r by lia.
    assert (Hk : 0 < 16 ^ Z.of_nat w) by (apply Z.pow_pos_nonneg; lia).
    rewrite (Z.rem_mul_r z 16 (16 ^ Z.of_nat w)) by lia. lia.
Qed.

(** X11. A job identifier can be read back: as a hex number it is the top
    32 bits of its UUID. So two UUIDs get the same job identifier exactly
    when their top 32 bits agree. *)
Theorem job_id_reads_back (u v : Z) :
  hex_value 0 (job_id_of u) = Some ((u / 2 ^ 96) mod 2 ^ 32) /\
  (job_id_of u = job_id_of v <-> (u / 2 ^ 96) mod 2 ^ 32 = (v / 2 ^ 96) mod 2 ^ 32).
Proof.
  assert (Hread : forall x, hex_value 0 (job_id_of x) = Some ((x / 2 ^ 96) mod 2 ^ 32)).
  { intros x. rewrite job_id_of_hex, hex_value_fixed.
    change (16 ^ Z.of_nat 8) with (2 ^ 32). f_equal.
    rewrite Z.mod_mod by lia. lia. }
  split; [apply Hread|]. split.
  - intros Heq. pose proof (Hread u) as Hu. rewrite Heq, Hread in Hu.
    injection Hu as Hu. symmetry. exact Hu.
  - intros Heq. rewrite !job_id_of_hex, Heq. reflexivity.
Qed.

(** ** The simulator's registry *)

Lemma published_topics_repeat (topic payload : string) (n : nat) :
  published_topics (repeat (MqttPublish topic payload) n) = repeat topic n.
Proof. induction n as [|n IH]; [reflexivity|]. simpl. rewrite IH. reflexivity. Qed.

Section SimulatorJobs.
Context `{PyLib}.

Lemma publish_each_eq (targets : list string) (topic payload : string)
    (s : world Simulator.V2XSimulator) :
  Simulator.publish_each targets topic payload s =
  (Ok tt, World (self s) (trace s ++ repeat (MqttPublish topic payload) (length targets))).
Proof.
  revert s. induction targets as [|t ts IH]; intros s.
  - simpl. rewrite app_nil_r. destruct s; reflexivity.
  - simpl. unfold bind, tell. rewrite IH. simpl. rewrite <- app_assoc. reflexivity.
Qed.

(** X12. The simulator's [create_job] publishes the assignment once per
    target, the same message each time, and publishes nothing for an empty
    target list; the job is stored and its identifier returned in either
    case. *)
Theorem simulator_create_job_publishes_per_target (u : Z) (now job_type : string)
    (targets : list string) (parameters : value) (s : world Simulator.V2XSimulator) :
  let id := job_id_of u in
  let job := pending_job id now (VStr job_type) (VList (map VStr targets)) parameters in
  let after := Simulator.create_job u now job_type targets parameters s in
  fst after = Ok id /\
  Simulator.jobs (self (snd after)) = <[id := job]> (Simulator.jobs (self s)) /\
  Simulator.vehicles (self (snd after)) = Simulator.vehicles (self s) /\
  published_topics (drop (length (trace s)) (trace (snd after))) =
    repeat (format_topic JobAssignment id) (length targets) /\
  trace (snd after) =
    trace s ++ repeat (MqttPublish (format_topic JobAssignment id) (json_dumps (job_value job)))
                 (length targets)
            ++ [Print "Job created: {} for vehicles {}"
                  [VStr job_type; VList (map VStr targets)]].
Proof.
  intros id job after. subst after.
  assert (Heq : Simulator.create_job u now job_type targets parameters s =
                (Ok id,
                 World (Simulator.set_job id job (self s))
                   (trace s ++ repeat (MqttPublish (format_topic JobAssignment id)
                                         (json_dumps (job_value job))) (length targets)
                      ++ [Print "Job created: {} for vehicles {}"
                            [VStr job_type; VList (map VStr targets)]]))).
  { unfold Simulator.create_job. cbv beta iota zeta delta [bind modify tell ret].
    rewrite publish_each_eq. simpl. rewrite <- app_assoc. reflexivity. }
  rewrite Heq. simpl.
  split; [reflexivity|]. split; [reflexivity|]. split; [reflexivity|].
  split; [|reflexivity].
  rewrite drop_app_length, published_topics_app. simpl. rewrite app_nil_r.
  apply published_topics_repeat.
Qed.
End SimulatorJobs.

(** ** The simulator's handler *)

Section SimulatorHandler.
Context `{PyLib}.

Lemma simulator_dispatch_returns route message (s : world Simulator.V2XSimulator) :
  fst (Simulator.dispatch route message s) = Ok tt.
Proof.
  destruct route as [[[] [id|]]|]; try reflexivity.
  cbv beta iota zeta delta [Simulator.dispatch Simulator.handle_job_response bind get fst self].
  destruct s as [d t]. simpl. destruct (Simulator.jobs d !! id); reflexivity.
Qed.

(** [on_message] in closed form. *)
Lemma on_message_eq (msg : MQTTMessage) (s : world Simulator.V2XSimulator) :
  Simulator.on_message msg s =
  match loads_payload (payload msg) with
  | Raise e => (Ok tt, World (self s) (trace s ++ [PrintError simulator_error_context e]))
  | Ok message =>
      match Simulator.classify (split "/" (topic msg)) with
      | Raise e => (Ok tt, World (self s) (trace s ++ [PrintError simulator_error_context e]))
      | Ok route => Simulator.dispatch route message s
      end
  end.
Proof.
  unfold Simulator.on_message, try_except. rewrite on_message_routes.
  cbv beta iota zeta delta [bind lift].
  destruct (loads_payload (payload msg)) as [message|e]; [|reflexivity].
  destruct (Simulator.classify (split "/" (topic msg))) as [route|e]; [|reflexivity].
  pose proof (simulator_dispatch_returns route message s) as Hret.
  destruct (Simulator.dispatch route message s) as [[u|e] s']; simpl in Hret.
  - reflexivity.
  - discriminate.
Qed.

(** X13. The simulator's [on_message] never raises and applies a message
    whole or not at all: when it prints an exception its state is as
    before. It publishes nothing itself, never touches its infrastructure
    store or its [running] flag, and changes its vehicles only on a
    status topic and its jobs only on a response topic for a job it
    holds. *)
Theorem on_message_is_atomic (msg : MQTTMessage) (s : world Simulator.V2XSimulator) :
  let after := Simulator.on_message msg s in
  let route := Simulator.parse (topic msg) in
  fst after = Ok tt /\
  (forall e, In (PrintError simulator_error_context e)
               (drop (length (trace s)) (trace (snd after))) ->
             self (snd after) = self s) /\
  published_topics (trace (snd after)) = published_topics (trace s) /\
  Simulator.infrastructure (self (snd after)) = Simulator.infrastructure (self s) /\
  Simulator.running (self (snd after)) = Simulator.running (self s) /\
  (Simulator.vehicles (self (snd after)) <> Simulator.vehicles (self s) ->
   exists id, route = Ok (Some (VehicleStatus, Some id))) /\
  (Simulator.jobs (self (snd after)) <> Simulator.jobs (self s) ->
   exists id, route = Ok (Some (JobResponse, Some id)) /\
              is_Some (Simulator.jobs (self s) !! id)).
Proof.
  intros after route. subst after route. unfold Simulator.parse.
  rewrite on_message_eq.
  assert (Hpub : forall l, published_topics (trace s ++ l) =
                           published_topics (trace s) ++ published_topics l)
    by (intros l; apply published_topics_app).
  destruct (loads_payload (payload msg)) as [message|e].
  2:{ simpl. rewrite Hpub, app_nil_r.
      repeat split; try reflexivity; intros Hne; exfalso; apply Hne; reflexivity. }
  destruct (Simulator.classify (split "/" (topic msg))) as [[[kind [id|]]|]|e] eqn:Hroute;
    try destruct kind; simpl; rewrite ?Hpub, ?app_nil_r, ?drop_app_length, ?drop_all.
  all: try (repeat split; try reflexivity;
            first [intros e [He|[]]; discriminate He
                  |intros e []
                  |intros Hne; solve [exfalso; apply Hne; reflexivity | eauto]]).
  - (* a job assignment prints and starts the thread *)
    cbv beta iota zeta delta [Simulator.handle_job_assignment bind tell]. simpl.
    rewrite <- app_assoc, Hpub, app_nil_r, drop_app_length.
    repeat split; try reflexivity;
      first [intros e [He|[He|[]]]; discriminate He
            |intros Hne; exfalso; apply Hne; reflexivity].
  - (* a job response *)
    cbv beta iota zeta delta [Simulator.handle_job_response bind get modify tell ret].
    simpl. destruct (Simulator.jobs (self s) !! id) as [j|] eqn:Hj; simpl;
      rewrite ?Hpub, ?app_nil_r, ?drop_app_length, ?drop_all.
    + repeat split; try reflexivity;
        first [intros e [He|[]]; discriminate He
              |intros Hne; solve [exfalso; apply Hne; reflexivity | exists id; eauto]].
    + repeat split; try reflexivity;
        first [intros e []
              |intros Hne; exfalso; apply Hne; reflexivity].
Qed.

(** X14. The dashboard and the simulator keep the same vehicles: when
    their vehicle stores agree and both handle the same messages, the
    stores agree afterwards. *)
Theorem vehicle_stores_agree (msgs : list MQTTMessage)
    (w : world App.Car2XDashboard) (s : world Simulator.V2XSimulator) :
  App.vehicles (self w) = Simulator.vehicles (self s) ->
  App.vehicles (self (App.deliver msgs w)) =
  Simulator.vehicles (self (Simulator.deliver msgs s)).
Proof.
  revert w s. induction msgs as [|m msgs IH]; intros w s Hagree; [exact Hagree|].
  rewrite deliver_cons. unfold Simulator.deliver. simpl fold_left.
  apply IH. rewrite on_mqtt_message_eq, on_message_eq.
  destruct (loads_payload (payload m)) as [message|e]; [|exact Hagree].
  unfold App.classify, Simulator.classify, getitem.
  destruct (split "/" (topic m)) as [|p0 [|p1 [|p2 [|p3 rest]]]]; simpl;
    try exact Hagree; eqb_cases; try exact Hagree.
  all: try (cbv beta iota zeta delta [bind get Simulator.handle_job_response]; simpl;
            repeat match goal with
              | |- context [App.jobs ?d !! ?i] => destruct (App.jobs d !! i)
              | |- context [Simulator.jobs ?d !! ?i] => destruct (Simulator.jobs d !! i)
              end; simpl; try exact Hagree).
  all: rewrite Hagree; reflexivity.
Qed.
End SimulatorHandler.

(** ** The answers to an assignment *)

Section Answers.
Context `{PyLib}.

Lemma respond_each_topics (id : string) (targets : list value) (clock : nat -> string)
    (n : nat) :
  published_topics (Simulator.respond_each id targets clock n) =
  repeat (format_topic JobResponse id) (length targets).
Proof.
  revert n. induction targets as [|t ts IH]; intros n; [reflexivity|].
  simpl. rewrite IH. reflexivity.
Qed.

Lemma respond_each_length (id : string) (targets : list value) (clock : nat -> string)
    (n : nat) :
  length (Simulator.respond_each id targets clock n) = (2 * length targets)%nat.
Proof.
  revert n. induction targets as [|t ts IH]; intros n; [reflexivity|].
  simpl. rewrite IH. lia.
Qed.

(** The identifier the simulator reads off an assignment topic has no
    [/]. *)
Lemma assignment_id_no_slash (topic id : string) :
  Simulator.parse topic = Ok (Some (JobAssignment, Some id)) -> contains "/" id = false.
Proof.
  unfold Simulator.parse, Simulator.classify, getitem. intros Hroute.
  pose proof (split_pieces "/" topic) as Hpieces.
  destruct (split "/" topic) as [|p0 [|p1 [|p2 [|p3 rest]]]]; simpl in Hroute;
    try discriminate; revert Hroute; eqb_cases; try discriminate.
  intros [= <-]. apply Hpieces. simpl. auto.
Qed.

(** X15. The thread that answers an assignment publishes one response per
    target, in the order of the targets, all on the response topic of the
    job, and the dashboard routes every one of them to that job, whatever
    identifier the assignment's topic carried. When the assignment has no
    [target_vehicles] the thread publishes nothing; it ends without
    publishing only when the assignment is no JSON object or its targets
    cannot be iterated. *)
Theorem send_responses_answers_each_target (topic id : string) (job_data : value)
    (clock : nat -> string) :
  Simulator.parse topic = Ok (Some (JobAssignment, Some id)) ->
  (forall effects,
     Simulator.send_responses id job_data clock = Some effects ->
     exists items targets,
       job_data = VDict items /\
       Simulator.py_iter (dict_get items "target_vehicles" (VList [])) = Some targets /\
       length effects = (2 * length targets)%nat /\
       published_topics effects = repeat (format_topic JobResponse id) (length targets) /\
       Forall (fun t => App.parse t = Ok (Some (JobResponse, Some id)))
         (published_topics effects)) /\
  (forall items,
     job_data = VDict items ->
     existsb (fun kv => String.eqb (fst kv) "target_vehicles") items = false ->
     Simulator.send_responses id job_data clock = Some []) /\
  (Simulator.send_responses id job_data clock = None <->
   (forall items, job_data <> VDict items) \/
   (exists items, job_data = VDict items /\
      Simulator.py_iter (dict_get items "target_vehicles" (VList [])) = None)).
Proof.
  intros Hroute. pose proof (assignment_id_no_slash topic id Hroute) as Hid.
  assert (Hparse : App.parse (format_topic JobResponse id) = Ok (Some (JobResponse, Some id))).
  { unfold App.parse, format_topic.
    change ("v2x/jobs/" +:+ id +:+ "/response") with
      ("v2x" +:+ String "/" ("jobs" +:+ String "/" (id +:+ String "/" "response"))).
    rewrite split_four by (reflexivity || exact Hid). reflexivity. }
  split; [|split].
  - intros effects Hsend. destruct job_data; try discriminate. simpl in Hsend.
    destruct (Simulator.py_iter (dict_get items "target_vehicles" (VList [])))
      as [targets|] eqn:Hiter; [|discriminate].
    injection Hsend as <-. exists items, targets.
    split; [reflexivity|]. split; [exact Hiter|].
    split; [apply respond_each_length|]. split; [apply respond_each_topics|].
    rewrite respond_each_topics.
    induction (length targets) as [|n IH]; constructor; [exact Hparse|exact IH].
  - intros items -> Hno. simpl. rewrite (dict_get_missing _ _ _ Hno). reflexivity.
  - split.
    + intros Hnone. destruct job_data;
        try (left; intros items' Heq; discriminate Heq).
      right. exists items. split; [reflexivity|]. simpl in Hnone.
      destruct (Simulator.py_iter (dict_get items "target_vehicles" (VList [])));
        [discriminate|reflexivity].
    + intros [Hnot|(items & -> & Hiter)].
      * destruct job_data; try reflexivity. destruct (Hnot items eq_refl).
      * simpl. rewrite Hiter. reflexivity.
Qed.
End Answers.

(** ** Order and repetition of entity updates *)

Section Order.
Context `{PyLib}.

Lemma status_step (id : string) (msg : MQTTMessage) (w : world App.Car2XDashboard) :
  is_status_for id msg ->
  self (snd (App.on_mqtt_message msg w)) =
  match loads_payload (payload msg) with
  | Ok s => App.set_vehicle id s (self w)
  | Raise _ => self w
  end.
Proof.
  intros (H1 & H2 & H3). unfold levels in *.
  rewrite on_mqtt_message_eq, (classify_status _ id H1 H2 H3).
  destruct (loads_payload (payload msg)); reflexivity.
Qed.

(** X16. Status updates of different vehicles commute: the dashboard's
    stores after two status messages for different identifiers do not
    depend on the order in which the two arrived. *)
Theorem status_updates_commute (a b : string) (ma mb : MQTTMessage)
    (w : world App.Car2XDashboard) :
  is_status_for a ma -> is_status_for b mb -> a <> b ->
  self (App.deliver [ma; mb] w) = self (App.deliver [mb; ma] w).
Proof.
  intros Ha Hb Hne. rewrite !deliver_cons. simpl App.deliver.
  rewrite (status_step b mb _ Hb), (status_step a ma _ Ha).
  rewrite (status_step a ma _ Ha), (status_step b mb _ Hb).
  destruct (loads_payload (payload ma)) as [sa|ea];
    destruct (loads_payload (payload mb)) as [sb|eb]; try reflexivity.
  unfold App.set_vehicle. simpl. f_equal. apply insert_insert_ne. congruence.
Qed.

(** X17. Redelivery is harmless to the entity stores: handling the same
    message twice leaves the dashboard's stores as handling it once,
    unless the message is routed to the emergency history or to a job,
    where every delivery is appended. *)
Theorem redelivery_changes_no_store (msg : MQTTMessage) (w : world App.Car2XDashboard) :
  levels msg !! 1%nat <> Some "emergency" ->
  levels msg !! 1%nat <> Some "jobs" ->
  self (App.deliver [msg; msg] w) = self (App.deliver [msg] w).
Proof.
  intros Hne Hnj. rewrite !deliver_cons. simpl App.deliver. unfold levels in *.
  rewrite !on_mqtt_message_eq.
  destruct (loads_payload (payload msg)) as [message|e]; [|reflexivity].
  unfold App.classify, getitem in *.
  destruct (split "/" (topic msg)) as [|p0 [|p1 [|p2 [|p3 rest]]]]; simpl in *;
    try reflexivity; eqb_cases; try reflexivity;
    try (exfalso; apply Hne; reflexivity); try (exfalso; apply Hnj; reflexivity).
  all: unfold App.set_vehicle, App.set_infrastructure; simpl; f_equal;
    apply insert_insert_eq.
Qed.
End Order.

(** * The further properties on concrete messages *)

(** X4 at work: the status topic of [V001]. *)
Lemma subscribed_topics_are_routed_witness :
  exists kind id,
    App.parse "v2x/vehicles/V001/status" = Ok (Some (kind, id)) /\
    "v2x/vehicles/V001/status" = format_topic kind (default "" id) /\
    kind <> JobAssignment /\
    (kind = EmergencyBroadcast <-> id = None) /\
    forall i, id = Some i -> contains "/" i = false.
Proof. apply (subscribed_topics_are_routed "v2x/vehicles/V001/status"). reflexivity. Defined.

(** X5 at work: the assignment topic of the job [deadbeef]. *)
Lemma simulator_subscribed_topics_are_routed_witness :
  exists kind id,
    Simulator.parse "v2x/jobs/deadbeef/assign" = Ok (Some (kind, Some id)) /\
    "v2x/jobs/deadbeef/assign" = format_topic kind id /\
    contains "/" id = false /\
    kind <> InfrastructureUpdate /\ kind <> EmergencyBroadcast.
Proof.
  apply (simulator_subscribed_topics_are_routed "v2x/jobs/deadbeef/assign"). reflexivity.
Defined.

(** X7 at work: the same acknowledgment delivered twice, then another. *)
Lemma responses_accumulate_witness :
  let msgs := [Demo.message "v2x/jobs/deadbeef/response" "1";
               Demo.message "v2x/jobs/deadbeef/response" "1";
               Demo.message "v2x/jobs/deadbeef/response" "2"] in
  let job := pending_job "deadbeef" Demo.noon (VStr "diagnostic")
               (VList [VStr "V001"; VStr "V002"]) VNone in
  let after := App.deliver (H := Demo.lib) msgs Demo.with_diagnostic_job in
  App.jobs (self after) !! "deadbeef" =
    Some (with_responses job (default [] (responses job) ++ [VInt 1; VInt 1; VInt 2])) /\
  (forall other, other <> "deadbeef" ->
     App.jobs (self after) !! other = App.jobs (self Demo.with_diagnostic_job) !! other) /\
  trace after =
    trace Demo.with_diagnostic_job
      ++ map (fun r => SocketEmit "job_response"
                         (VDict [("job_id", VStr "deadbeef"); ("response", r)]))
           [VInt 1; VInt 1; VInt 2].
Proof.
  apply (responses_accumulate (H := Demo.lib) "deadbeef").
  - repeat constructor.
  - reflexivity.
  - discriminate.
Defined.

(** X14 at work: both programs start without vehicles and hear the same
    status messages. *)
Lemma vehicle_stores_agree_witness :
  let msgs := [Demo.message "v2x/vehicles/V001/status" "1";
               Demo.message "v2x/vehicles/V002/status" "5";
               Demo.message "v2x/vehicles/V001/status" "2"] in
  App.vehicles (self (App.deliver (H := Demo.lib) msgs fresh)) =
  Simulator.vehicles (self (Simulator.deliver (H := Demo.lib) msgs simulator_fresh)).
Proof. apply (vehicle_stores_agree (H := Demo.lib)). reflexivity. Defined.

(** X15 at work: the assignment of the diagnostic job for [V001] and
    [V002]. *)
Lemma send_responses_answers_each_target_witness :
  let job_data := job_value (pending_job "deadbeef" Demo.noon (VStr "diagnostic")
                               (VList [VStr "V001"; VStr "V002"]) VNone) in
  let clock := fun _ : nat => Demo.noon in
  (forall effects,
     Simulator.send_responses (H := Demo.lib) "deadbeef" job_data clock = Some effects ->
     exists items targets,
       job_data = VDict items /\
       Simulator.py_iter (dict_get items "target_vehicles" (VList [])) = Some targets /\
       length effects = (2 * length targets)%nat /\
       published_topics effects = repeat (format_topic JobResponse "deadbeef") (length targets) /\
       Forall (fun t => App.parse t = Ok (Some (JobResponse, Some "deadbeef")))
         (published_topics effects)) /\
  (forall items,
     job_data = VDict items ->
     existsb (fun kv => String.eqb (fst kv) "target_vehicles") items = false ->
     Simulator.send_responses (H := Demo.lib) "deadbeef" job_data clock = Some []) /\
  (Simulator.send_responses (H := Demo.lib) "deadbeef" job_data clock = None <->
   (forall items, job_data <> VDict items) \/
   (exists items, job_data = VDict items /\
      Simulator.py_iter (dict_get items "target_vehicles" (VList [])) = None)).
Proof.
  apply (send_responses_answers_each_target (H := Demo.lib) "v2x/jobs/deadbeef/assign").
  reflexivity.
Defined.

(** X16 at work: [V001] and [V002] in either order. *)
Lemma status_updates_commute_witness :
  self (App.deliver (H := Demo.lib)
          [Demo.message "v2x/vehicles/V001/status" "1";
           Demo.message "v2x/vehicles/V002/status" "5"] fresh) =
  self (App.deliver (H := Demo.lib)
          [Demo.message "v2x/vehicles/V002/status" "5";
           Demo.message "v2x/vehicles/V001/status" "1"] fresh).
Proof.
  apply (status_updates_commute (H := Demo.lib) "V001" "V002").
  - repeat split; reflexivity.
  - repeat split; reflexivity.
  - discriminate.
Defined.

(** X17 at work: a traffic light's update delivered twice. *)
Lemma redelivery_changes_no_store_witness :
  self (App.deliver (H := Demo.lib)
          [Demo.message "v2x/infrastructure/TL001" "30";
           Demo.message "v2x/infrastructure/TL001" "30"] fresh) =
  self (App.deliver (H := Demo.lib) [Demo.message "v2x/infrastructure/TL001" "30"] fresh).
Proof.
  apply (redelivery_changes_no_store (H := Demo.lib)); vm_compute; discriminate.
Defined.
